(** * arecs: academic records crawler (src/arecs.py)

    A shallow embedding of the parts of [arecs.py] that compute: the
    credentials bootstrap, [Result.__str__], [RecordHandler.calc_gpa],
    and the table extraction of [Crawler] ([group], [parse_results],
    [strip], [parse_ects]).

    Python text is a list of Unicode code points, Python [int] is [Z],
    Python [float] is the kernel's binary64 [float].  A raised exception
    is a value of [exn]; code that prints, writes files or talks to the
    network returns the list of events it performed. *)

From Stdlib Require Import String Ascii DecimalString.
From Stdlib Require Import ZArith NArith Bool Lia Floats.
From Stdlib Require Import List Permutation.
Import ListNotations.

Set Implicit Arguments.

(** ** Text *)

Definition char := N.
Definition str := list char.

(** A literal of 8-bit characters, read as code points U+0000..U+00FF. *)
Definition u (s : string) : str :=
  List.map N_of_ascii (list_ascii_of_string s).

Definition str_eq_dec : forall a b : str, {a = b} + {a <> b} :=
  list_eq_dec N.eq_dec.

Definition str_eqb (a b : str) : bool :=
  if str_eq_dec a b then true else false.

Definition SPACE : char := 32%N.
Definition NBSP : char := 160%N.
Definition DOT : char := 46%N.
Definition COMMA : char := 44%N.
Definition NEWLINE : char := 10%N.

(** ** Exceptions *)

Inductive exn : Type :=
| ValueError
| IndexError
| TypeError
| ZeroDivisionError
| OverflowError.

Inductive or_exn (A : Type) : Type :=
| OK (a : A)
| Raise (e : exn).

Arguments OK {A} a.
Arguments Raise {A} e.

Definition bind {A B : Type} (m : or_exn A) (f : A -> or_exn B) : or_exn B :=
  match m with
  | OK a => f a
  | Raise e => Raise e
  end.

Declare Scope py_scope.
Delimit Scope py_scope with py.
Notation "x <- m ;; k" := (bind m (fun x => k))
  (at level 61, m at next level, right associativity) : py_scope.
Open Scope py_scope.

Fixpoint mapM {A B : Type} (f : A -> or_exn B) (l : list A) : or_exn (list B) :=
  match l with
  | [] => OK []
  | a :: l' => b <- f a ;; bs <- mapM f l' ;; OK (b :: bs)
  end.

Definition fails {A : Type} (m : or_exn A) : Prop := exists e, m = Raise e.

(** ** Python builtins used by the program *)

Module Py.

(** [bool(s)] for a string: the empty string is false. *)
Definition truthy (s : str) : bool :=
  match s with
  | [] => false
  | _ :: _ => true
  end.

(** [c.isspace()]: the code points Python counts as whitespace. *)
Definition isspace (c : char) : bool :=
  ((9 <=? c) && (c <=? 13) || (28 <=? c) && (c <=? 32)
   || (c =? 133) || (c =? 160) || (c =? 5760)
   || (8192 <=? c) && (c <=? 8202)
   || (c =? 8232) || (c =? 8233) || (c =? 8239) || (c =? 8287)
   || (c =? 12288))%N.

Fixpoint lstrip (s : str) : str :=
  match s with
  | [] => []
  | c :: s' => if isspace c then lstrip s' else s
  end.

Definition rstrip (s : str) : str := rev (lstrip (rev s)).

(** [s.strip()]. *)
Definition strip (s : str) : str := rstrip (lstrip s).

(** [s.replace(a, b)] for one-character [a] and [b]. *)
Definition replace (a b : char) (s : str) : str :=
  List.map (fun c => if (c =? a)%N then b else c) s.

(** [s.split(sep)] for a one-character separator: one more segment
    than there are separators, empty segments kept. *)
Fixpoint split (sep : char) (s : str) : list str :=
  match s with
  | [] => [[]]
  | c :: s' =>
      if (c =? sep)%N then [] :: split sep s'
      else match split sep s' with
           | seg :: rest => (c :: seg) :: rest
           | [] => [[c]]
           end
  end.

(** [lst.index(x)]: position of the first occurrence. *)
Fixpoint index (x : str) (lst : list str) : or_exn nat :=
  match lst with
  | [] => Raise ValueError
  | y :: lst' => if str_eqb y x then OK 0%nat
                 else i <- index x lst' ;; OK (S i)
  end.

(** [lst[i]] for [i >= 0]. *)
Definition getitem {A : Type} (lst : list A) (i : nat) : or_exn A :=
  match nth_error lst i with
  | Some a => OK a
  | None => Raise IndexError
  end.

(** [s[-1]]: a string of one character. *)
Definition last_char (s : str) : or_exn str :=
  match rev s with
  | c :: _ => OK [c]
  | [] => Raise IndexError
  end.

(** [lst[i:j]] for [0 <= i <= j]. *)
Definition slice {A : Type} (lst : list A) (i j : nat) : list A :=
  firstn (j - i) (skipn i lst).

(** [range(start, stop, step)] for [step >= 0]; a zero step raises. *)
Definition range (start stop step : nat) : or_exn (list nat) :=
  match step with
  | O => Raise ValueError
  | S _ => OK (List.map (fun k => start + k * step)%nat
                 (seq 0 ((stop - start + step - 1) / step)))
  end.

(** [str(n)] for an [int]. *)
Definition str_of_int (n : Z) : str :=
  u (NilZero.string_of_int (Z.to_int n)).

(** [float(n)] for an [int]: the nearest binary64, ties to even;
    values that round past the largest finite float raise. *)
Definition nearest_float (n : Z) : float :=
  SF2Prim (binary_normalize prec emax n 0 false).

Definition float_of_int (n : Z) : or_exn float :=
  if (Z.abs n <? 2 ^ 1024 - 2 ^ 970)%Z
  then OK (nearest_float n)
  else Raise OverflowError.

(** A Python number as this program holds one: an [int] or a [float]. *)
Inductive number : Type :=
| Int (n : Z)
| Float (x : float).

Definition to_float (a : number) : or_exn float :=
  match a with
  | Int n => float_of_int n
  | Float x => OK x
  end.

(** [x * n] with [x] a float and [n] an int. *)
Definition mul_float_int (x : float) (n : Z) : or_exn float :=
  y <- float_of_int n ;; OK (x * y)%float.

(** [a + x] with [x] a float: an int [a] is converted first. *)
Definition add_float (a : number) (x : float) : or_exn number :=
  y <- to_float a ;; OK (Float (y + x)%float).

(** [n / d] for two ints, [d <> 0]: the quotient rounded once to the
    nearest binary64.  The scaled quotient carries at least 64 bits and
    a sticky bit for the remainder. *)
Definition int_truediv (n d : Z) : or_exn float :=
  let s := Z.max 0 (64 + Z.log2 (Z.abs d) - Z.log2 (Z.abs n) + 1)%Z in
  let q := (Z.abs n * 2 ^ s / Z.abs d)%Z in
  let r := (Z.abs n * 2 ^ s mod Z.abs d)%Z in
  let m := (2 * q + (if (r =? 0)%Z then 0 else 1))%Z in
  let neg := negb (Z.sgn n * Z.sgn d >=? 0)%Z in
  let neg0 := (d <? 0)%Z in
  let x := SF2Prim (binary_normalize prec emax (if neg then - m else m)
                      (- s - 1) neg0) in
  if is_infinity x then Raise OverflowError else OK x.

(** [a / d] with [d] an int: division by zero raises. *)
Definition truediv (a : number) (d : Z) : or_exn float :=
  if (d =? 0)%Z then Raise ZeroDivisionError
  else match a with
       | Int n => int_truediv n d
       | Float x => y <- float_of_int d ;; OK (x / y)%float
       end.

(** [format(x, '.pf')] for [p >= 1]: the exact binary value rounded
    to [p] decimals, ties to even.  [scaled m e p] is [m * 2^e * 10^p]
    rounded to an integer. *)
Definition scaled (m : positive) (e : Z) (p : nat) : Z :=
  let k := (10 ^ Z.of_nat p)%Z in
  if (0 <=? e)%Z then Z.pos m * 2 ^ e * k
  else let num := (Z.pos m * k)%Z in
       let den := (2 ^ (- e))%Z in
       let q := (num / den)%Z in
       let r := (num mod den)%Z in
       if (2 * r >? den)%Z then q + 1
       else if (2 * r =? den)%Z then (if Z.odd q then q + 1 else q)
       else q.

Definition fixed_text (neg : bool) (q : Z) (p : nat) : str :=
  let k := (10 ^ Z.of_nat p)%Z in
  let frac := str_of_int (q mod k) in
  (if neg then u "-" else []) ++ str_of_int (q / k) ++ u "."
    ++ repeat 48%N (p - length frac) ++ frac.

Definition format_fixed (p : nat) (x : float) : str :=
  match Prim2SF x with
  | S754_nan => u "nan"
  | S754_infinity neg => (if neg then u "-" else []) ++ u "inf"
  | S754_zero neg => fixed_text neg 0 p
  | S754_finite neg m e => fixed_text neg (scaled m e p) p
  end.

(** [sep.join(parts)]. *)
Fixpoint join (sep : str) (parts : list str) : str :=
  match parts with
  | [] => []
  | [p] => p
  | p :: rest => p ++ sep ++ join sep rest
  end.

(** A format string, read off as its pieces: literal text and
    replacement fields [{}], [{:<w}], [{:>w}]. *)
Inductive align : Type := AlignLeft | AlignRight.

Inductive piece : Type :=
| Lit (text : str)
| Field (spec : option (align * nat)).

Definition pad (spec : option (align * nat)) (s : str) : str :=
  match spec with
  | None => s
  | Some (AlignLeft, w) => s ++ repeat SPACE (w - length s)
  | Some (AlignRight, w) => repeat SPACE (w - length s) ++ s
  end.

(** [template.format(a1, .., an)], the arguments already converted to
    text; a field without an argument raises. *)
Fixpoint format (template : list piece) (args : list str) : or_exn str :=
  match template with
  | [] => OK []
  | Lit text :: template' =>
      rest <- format template' args ;; OK (text ++ rest)
  | Field spec :: template' =>
      match args with
      | [] => Raise IndexError
      | a :: args' =>
          rest <- format template' args' ;; OK (pad spec a ++ rest)
      end
  end.

End Py.

(** ** What the interpreter and its Unicode database supply

    [float(s)], [str(x)] of a float and the Unicode character tables are
    not part of [arecs.py]; the program is modelled over any runtime
    that provides them.  The tables are written out below for the code
    points up to U+00FF and taken from the runtime above that. *)

Class Runtime : Type := {
  (** [float(s)]: [ValueError] when [s] is not a float literal. *)
  float_of_str : str -> or_exn float;
  (** [str(x)], which is also [format(x, '>')]. *)
  str_of_float : float -> str;
  (** Decimal digit value of a code point above U+007F, if it is a digit. *)
  unicode_decimal : char -> option Z;
  (** Full compatibility decomposition of a code point above U+00FF. *)
  unicode_decomposition : char -> list char;
  (** Canonical combining class of a code point above U+00FF. *)
  unicode_combining : char -> N
}.

(** The compatibility decompositions of the code points up to U+00FF;
    a code point that is not listed decomposes to itself.  All of them
    have combining class 0. *)
Definition latin1_decompositions : list (char * list char) :=
  [(160, [32]); (168, [32; 776]); (170, [97]); (175, [32; 772]);
   (178, [50]); (179, [51]); (180, [32; 769]); (181, [956]);
   (184, [32; 807]); (185, [49]); (186, [111]);
   (188, [49; 8260; 52]); (189, [49; 8260; 50]); (190, [51; 8260; 52]);
   (192, [65; 768]); (193, [65; 769]); (194, [65; 770]); (195, [65; 771]);
   (196, [65; 776]); (197, [65; 778]); (199, [67; 807]);
   (200, [69; 768]); (201, [69; 769]); (202, [69; 770]); (203, [69; 776]);
   (204, [73; 768]); (205, [73; 769]); (206, [73; 770]); (207, [73; 776]);
   (209, [78; 771]);
   (210, [79; 768]); (211, [79; 769]); (212, [79; 770]); (213, [79; 771]);
   (214, [79; 776]);
   (217, [85; 768]); (218, [85; 769]); (219, [85; 770]); (220, [85; 776]);
   (221, [89; 769]);
   (224, [97; 768]); (225, [97; 769]); (226, [97; 770]); (227, [97; 771]);
   (228, [97; 776]); (229, [97; 778]); (231, [99; 807]);
   (232, [101; 768]); (233, [101; 769]); (234, [101; 770]); (235, [101; 776]);
   (236, [105; 768]); (237, [105; 769]); (238, [105; 770]); (239, [105; 776]);
   (241, [110; 771]);
   (242, [111; 768]); (243, [111; 769]); (244, [111; 770]); (245, [111; 771]);
   (246, [111; 776]);
   (249, [117; 768]); (250, [117; 769]); (251, [117; 770]); (252, [117; 776]);
   (253, [121; 769]); (255, [121; 776])]%N.

Fixpoint assoc (c : char) (table : list (char * list char)) : option (list char) :=
  match table with
  | [] => None
  | (k, v) :: table' => if (k =? c)%N then Some v else assoc c table'
  end.

Definition latin1_decomposition (c : char) : list char :=
  match assoc c latin1_decompositions with
  | Some d => d
  | None => [c]
  end.

(** The combining classes of the marks these decompositions produce. *)
Definition latin1_marks_combining (c : char) : N :=
  (if (768 <=? c) && (c <=? 778) then 230
   else if c =? 807 then 202 else 0)%N.

(** Digits of a decimal numeral, most significant first. *)
Fixpoint ascii_digits (acc : Z) (s : str) : option Z :=
  match s with
  | [] => Some acc
  | c :: s' => if ((48 <=? c) && (c <=? 57))%N
               then ascii_digits (10 * acc + Z.of_N (c - 48)) s'
               else None
  end.

(** [float(s)] on plain numerals [ddd] and [ddd.ddd] of at most fifteen
    digits, where one correctly rounded division gives the nearest
    float; anything else is rejected. *)
Definition plain_float_of_str (s : str) : or_exn float :=
  match Py.split DOT s with
  | [ip] =>
      match ip, ascii_digits 0 ip with
      | _ :: _, Some n =>
          if (length ip <=? 15)%nat then Py.float_of_int n else Raise ValueError
      | _, _ => Raise ValueError
      end
  | [ip; fp] =>
      match ip, fp, ascii_digits 0 (ip ++ fp) with
      | _ :: _, _ :: _, Some n =>
          if (length (ip ++ fp) <=? 15)%nat
          then x <- Py.float_of_int n ;;
               y <- Py.float_of_int (10 ^ Z.of_nat (length fp)) ;;
               OK (x / y)%float
          else Raise ValueError
      | _, _, _ => Raise ValueError
      end
  | _ => Raise ValueError
  end.

(** ** class Result *)

Record Result : Type := new_Result {
  semester : str;
  exam : str;
  grade : float;
  ects : Z;
  passed : str
}.

(** An HTML element as the program uses one: only its text is read. *)
Record Tag : Type := new_Tag { getText : str }.

(** ** Effects *)

Inductive event : Type :=
| Print (text : str)
| WriteFile (name content : str)
| Get (url : str) (params : list (str * str))
| Post (url : str) (data : list (str * str)).

Definition is_request (ev : event) : bool :=
  match ev with
  | Get _ _ | Post _ _ => true
  | Print _ | WriteFile _ _ => false
  end.

Inductive stop : Type :=
| SystemExit (status : Z)
| Uncaught (e : exn).

(** A computation with effects: the events it performed, in order, and
    either the value it returned or how it stopped. *)
Definition io (A : Type) : Type := (list event * (stop + A))%type.

Definition ret {A : Type} (a : A) : io A := ([], inr a).

Definition io_bind {A B : Type} (m : io A) (f : A -> io B) : io B :=
  match m with
  | (t, inl s) => (t, inl s)
  | (t, inr a) => let (t', r) := f a in (t ++ t', r)
  end.

Definition perform (ev : event) : io unit := ([ev], inr tt).
Definition sys_exit {A : Type} (status : Z) : io A := ([], inl (SystemExit status)).

Definition lift {A : Type} (m : or_exn A) : io A :=
  match m with
  | OK a => ret a
  | Raise e => ([], inl (Uncaught e))
  end.

Notation "x <~ m ;; k" := (io_bind m (fun x => k))
  (at level 61, m at next level, right associativity) : py_scope.

(** What the outside world holds when the script starts. *)
Record env : Type := new_env {
  (** [USER] and [PASSWORD] when [from secrets import USER, PASSWORD]
      succeeds, [None] when it raises [ImportError]. *)
  secrets : option (str * str);
  (** [re.findall] of the login ticket pattern on the login page. *)
  tickets : list str;
  (** [href] of the anchor labelled Notenspiegel, if the portal has one. *)
  notenspiegel : option str;
  (** The header cells [th.Konto] and the data cells [td.posrecords]. *)
  th_Konto : list Tag;
  td_posrecords : list Tag
}.

Section Program.

Context {rt : Runtime}.

(** *** [int(s)] *)

Definition decimal_value (c : char) : option Z :=
  if ((48 <=? c) && (c <=? 57))%N then Some (Z.of_N (c - 48))
  else if (c <? 128)%N then None
  else unicode_decimal c.

(** Digits, single underscores allowed between them. *)
Fixpoint digits (acc : Z) (after_digit : bool) (s : str) : or_exn Z :=
  match s with
  | [] => if after_digit then OK acc else Raise ValueError
  | c :: s' =>
      if (c =? 95)%N
      then (if after_digit then digits acc false s' else Raise ValueError)
      else match decimal_value c with
           | Some d => digits (10 * acc + d) true s'
           | None => Raise ValueError
           end
  end.

Definition int_of_str (s : str) : or_exn Z :=
  match Py.strip s with
  | [] => Raise ValueError
  | c :: s' =>
      if (c =? 45)%N then n <- digits 0 false s' ;; OK (- n)%Z
      else if (c =? 43)%N then digits 0 false s'
      else digits 0 false (c :: s')
  end.

(** *** [unicodedata.normalize("NFKD", s)] *)

Definition decomposition (c : char) : list char :=
  if (c <? 256)%N then latin1_decomposition c else unicode_decomposition c.

Definition combining (c : char) : N :=
  if (c <? 256)%N then 0%N else unicode_combining c.

(** [racc] is the text ordered so far, last character first: a mark
    moves left past marks of a higher combining class. *)
Fixpoint reorder_insert (c : char) (racc : list char) : list char :=
  match racc with
  | [] => [c]
  | d :: r =>
      if ((0 <? combining c) && (combining c <? combining d))%N
      then d :: reorder_insert c r
      else c :: racc
  end.

Definition canonical_order (s : str) : str :=
  rev (fold_left (fun racc c => reorder_insert c racc) s []).

Definition normalize_NFKD (s : str) : str :=
  canonical_order (flat_map decomposition s).

(** *** Result.__str__ *)

Definition passed_template : list Py.piece :=
  [Py.Field (Some (Py.AlignLeft, 14)); Py.Field (Some (Py.AlignLeft, 40));
   Py.Lit (u " > "); Py.Field (Some (Py.AlignRight, 0));
   Py.Lit (u " ("); Py.Field None; Py.Lit (u " ECTS)")]%nat.

Definition failed_template : list Py.piece :=
  [Py.Lit (u "Not yet passed: "); Py.Field None].

Definition Result_str (self : Result) : or_exn str :=
  if Py.truthy (passed self)
  then Py.format passed_template
         [semester self; exam self; str_of_float (grade self);
          Py.str_of_int (ects self)]
  else Py.format failed_template [exam self].

(** *** class RecordHandler *)

(** The body of the loop of [calc_gpa] on one record. *)
Definition calc_gpa_step (acc : Py.number * Z) (res : Result)
  : or_exn (Py.number * Z) :=
  let (sum_grade, sum_ects) := acc in
  if Py.truthy (passed res)
  then g <- Py.mul_float_int (grade res) (ects res) ;;
       sum_grade' <- Py.add_float sum_grade g ;;
       OK (sum_grade', (sum_ects + ects res)%Z)
  else OK acc.

Fixpoint calc_gpa_loop (results : list Result) (acc : Py.number * Z)
  : or_exn (Py.number * Z) :=
  match results with
  | [] => OK acc
  | res :: rest => acc' <- calc_gpa_step acc res ;; calc_gpa_loop rest acc'
  end.

Definition calc_gpa (results : list Result) : or_exn float :=
  acc <- calc_gpa_loop results (Py.Int 0, 0%Z) ;;
  Py.truediv (fst acc) (snd acc).

Definition print_exams (results : list Result) : io unit :=
  lines <~ lift (mapM Result_str results) ;;
  perform (Print (Py.join [NEWLINE] lines)).

(** *** class Crawler *)

Definition CAS_URL : str :=
  u "https://cas.uni-mannheim.de/cas/login?service=https%3A%2F%2Fportal.uni-mannheim.de%2Fqisserver%2Frds%3Fstate%3Duser%26type%3D1".

Definition QIS_URL : str :=
  u "https://portal.uni-mannheim.de/qisserver/rds?".

Definition Pruefungsname : str := u "Pr" ++ [252%N] ++ u "fungsname".

(** [group(lst, n)], the generator run to its end by [list]. *)
Definition group (lst : list str) (n : nat) : or_exn (list (list str)) :=
  starts <- Py.range 0 (length lst) n ;;
  OK (List.map (fun i => Py.slice lst i (i + n)) starts).

Definition strip (tag : Tag) : str :=
  normalize_NFKD (Py.strip (getText tag)).

Definition parse_ects (ectss : str) : or_exn str :=
  seg <- Py.getitem (Py.split DOT ectss) 2 ;;
  Py.last_char seg.

(** The body of the loop of [parse_results] on one group of cells. *)
Definition row_result (elements : list str) (tup : list str) : or_exn Result :=
  let grade_lst := tup in
  i <- Py.index (u "Semester") elements ;;
  semester <- Py.getitem grade_lst i ;;
  i <- Py.index Pruefungsname elements ;;
  exam <- Py.getitem grade_lst i ;;
  i <- Py.index (u "Note") elements ;;
  cell <- Py.getitem grade_lst i ;;
  grade <- float_of_str (Py.replace COMMA DOT cell) ;;
  i <- Py.index (u "ECTS") elements ;;
  cell <- Py.getitem grade_lst i ;;
  digit <- parse_ects cell ;;
  ects <- int_of_str digit ;;
  i <- Py.index (u "Status") elements ;;
  passed <- Py.getitem grade_lst i ;;
  OK (new_Result semester exam grade ects passed).

(** [parse_results] from the header labels and the normalized cells
    on: grouping, then one record per group. *)
Definition table_results (elements raw_results : list str)
  : or_exn (list Result) :=
  let no_elems := length elements in
  res_tuples <- group raw_results no_elems ;;
  mapM (row_result elements) res_tuples.

Definition login (e : env) (USER PASSWORD : str) : io unit :=
  _ <~ perform (Get CAS_URL []) ;;
  lt <~ lift (Py.getitem (tickets e) 0) ;;
  perform (Post CAS_URL
             [(u "username", USER); (u "password", PASSWORD); (u "lt", lt);
              (u "execution", u "e1s1"); (u "_eventId", u "submit");
              (u "submit", u "Login")]).

Definition not_subscriptable : str :=
  u "'NoneType' object is not subscriptable".

Definition parse_results (e : env) : io (list Result) :=
  _ <~ perform (Get QIS_URL
                  [(u "state", u "user"); (u "type", u "8");
                   (u "topitem", u "pruefungen");
                   (u "breadCrumbSource", u "portal")]) ;;
  match notenspiegel e with
  | None =>
      _ <~ perform (Print (not_subscriptable ++ [NEWLINE; NEWLINE]
              ++ u "A TypeError occurred while trying to access the website."
              ++ [NEWLINE]
              ++ u "Make sure your credentials are properly maintained.")) ;;
      sys_exit 1
  | Some res_link =>
      _ <~ perform (Get res_link []) ;;
      let elements := List.map (fun tag => Py.strip (getText tag)) (th_Konto e) in
      let raw_results := List.map strip (td_posrecords e) in
      lift (table_results elements raw_results)
  end.

Definition run (e : env) (USER PASSWORD : str) : io unit :=
  _ <~ login e USER PASSWORD ;;
  results <~ parse_results e ;;
  gpa <~ lift (calc_gpa results) ;;
  let gpa_str := u "Your GPA is: " ++ Py.format_fixed 2 gpa in
  _ <~ perform (Print (gpa_str ++ [NEWLINE] ++ repeat 45%N (length gpa_str))) ;;
  print_exams results.

(** *** The script *)

Definition secf : str := u "secrets.py".

(** The [try] block at the top of the module. *)
Definition bootstrap (e : env) : io (str * str) :=
  match secrets e with
  | Some (USER, PASSWORD) =>
      if negb (Py.truthy USER) || negb (Py.truthy PASSWORD)
      then _ <~ perform (Print (u "Please maintain your credentials.")) ;;
           sys_exit 1
      else ret (USER, PASSWORD)
  | None =>
      _ <~ perform (WriteFile secf
                      (u "USER = ''" ++ [NEWLINE] ++ u "PASSWORD = ''")) ;;
      _ <~ perform (Print
              (u "File " ++ secf
               ++ u " was missing and thus created. Please maintain your credentials."
               ++ [NEWLINE] ++ u "See " ++ secf
               ++ u ".example for an example.")) ;;
      sys_exit 1
  end.

(** Running [arecs.py] as a script. *)
Definition main (e : env) : io unit :=
  credentials <~ bootstrap e ;;
  run e (fst credentials) (snd credentials).

End Program.

(** ** Vocabulary of the statements *)

(** The header labels [parse_results] looks up. *)
Definition required_labels : list str :=
  [u "Semester"; Pruefungsname; u "Note"; u "ECTS"; u "Status"].

(** The cell of a row under a header label: [tup[elements.index(label)]]. *)
Definition field (label : str) (elements tup : list str) : or_exn str :=
  i <- Py.index label elements ;; Py.getitem tup i.

(** The content of a credits cell: the script comment of the portal's
    template around the credit digit. *)
Definition ects_template (digit : char) : str :=
  u "<!-- document.write(Math.round(" ++ digit :: u ".0*10)/10); //-->".

(** The line [Result.__str__] gives a passed record. *)
Definition passed_line {rt : Runtime} (self : Result) : str :=
  semester self ++ repeat SPACE (14 - length (semester self))
    ++ exam self ++ repeat SPACE (40 - length (exam self))
    ++ u " > " ++ str_of_float (grade self)
    ++ u " (" ++ Py.str_of_int (ects self) ++ u " ECTS)".

(** A trace without requests to the network. *)
Definition no_request (trace : list event) : bool :=
  forallb (fun ev => negb (is_request ev)) trace.

(** The [k]-th run of [n] cells of a flat sequence. *)
Definition chunk (lst : list str) (n k : nat) : list str :=
  firstn n (skipn (k * n) lst).

(** ** The spec's wording of the grade-point average *)

Definition passed_records (results : list Result) : list Result :=
  filter (fun r => Py.truthy (passed r)) results.

(** Sum over the records of grade times credits, in list order. *)
Definition weighted_sum (rs : list Result) : float :=
  fold_left (fun s r => (s + grade r * Py.nearest_float (ects r))%float)
    rs 0%float.

(** Sum over the records of the credits. *)
Definition credit_sum (rs : list Result) : Z :=
  fold_left (fun s r => (s + ects r)%Z) rs 0%Z.

Definition gpa_spec (results : list Result) : float :=
  (weighted_sum (passed_records results)
     / Py.nearest_float (credit_sum (passed_records results)))%float.

(** The ints that [float] converts without overflow. *)
Definition float_range (n : Z) : Prop := (Z.abs n < 2 ^ 1024 - 2 ^ 970)%Z.

(** ** A runtime for concrete runs

    Plain numerals for [float(s)], grades printed with one decimal (the
    portal's grades are such numerals), and pages written in the code
    points up to U+00FF: above them only the marks that normalization
    produces from these occur. *)
Definition latin1_runtime : Runtime := {|
  float_of_str := plain_float_of_str;
  str_of_float := Py.format_fixed 1;
  unicode_decimal := fun _ => None;
  unicode_decomposition := fun c => [c];
  unicode_combining := latin1_marks_combining
|}.

(** ** Sample pages and records *)

Module Sample.

Definition headers : list str :=
  [u "Semester"; Pruefungsname; u "Note"; u "ECTS"; u "Status"].

Definition row1 : list str :=
  [u "WS 19/20"; u "Analysis"; u "2,3"; ects_template 54%N; u "BE"].

Definition row2 : list str :=
  [u "SS 20"; u "Algebra"; u "1,7"; ects_template 56%N; u "BE"].

(** The headers with the first two columns exchanged, and [row1] with
    them. *)
Definition headers_swapped : list str :=
  [Pruefungsname; u "Semester"; u "Note"; u "ECTS"; u "Status"].

Definition row1_swapped : list str :=
  [u "Analysis"; u "WS 19/20"; u "2,3"; ects_template 54%N; u "BE"].

(** A header row that names the semester column twice. *)
Definition headers_twice : list str :=
  [u "Semester"; u "Semester"; Pruefungsname; u "Note"; u "ECTS"; u "Status"].

Definition row_twice : list str :=
  [u "WS 19/20"; u "SS 20"; u "Analysis"; u "2,3"; ects_template 54%N; u "BE"].

Definition row_twice_swapped : list str :=
  [u "SS 20"; u "WS 19/20"; u "Analysis"; u "2,3"; ects_template 54%N; u "BE"].

Definition analysis : Result :=
  new_Result (u "WS 19/20") (u "Analysis") 2 6 (u "BE").

Definition algebra : Result :=
  new_Result (u "SS 20") (u "Algebra") 4 3 (u "BE").

(** Passed, without credits. *)
Definition seminar : Result :=
  new_Result (u "SS 20") (u "Seminar") 2 0 (u "BE").

(** Status cell empty. *)
Definition pending : Result :=
  new_Result (u "SS 21") (u "Logik") 5 6 [].

(** Status cell says failed. *)
Definition failed : Result :=
  new_Result (u "SS 21") (u "Logik") 5 6 (u "NB").


(** Eight cells under five headers: one full row and three cells. *)
Definition ragged_cells : list str := row1 ++ firstn 3 row2.

Definition page (credentials : option (str * str)) : env :=
  new_env credentials [u "LT-1-abc"] (Some (u "https://portal/notenspiegel"))
    (List.map new_Tag headers) (List.map new_Tag (row1 ++ row2)).

End Sample.

(** ** Vocabulary for the script as a whole *)

(** The header labels and the normalized cell texts [parse_results]
    takes from the results page. *)
Definition page_elements (e : env) : list str :=
  List.map (fun tag => Py.strip (getText tag)) (th_Konto e).

Definition page_cells {rt : Runtime} (e : env) : list str :=
  List.map strip (td_posrecords e).

(** The requests of a run up to the results page. *)
Definition login_form (USER PASSWORD lt : str) : list (str * str) :=
  [(u "username", USER); (u "password", PASSWORD); (u "lt", lt);
   (u "execution", u "e1s1"); (u "_eventId", u "submit");
   (u "submit", u "Login")].

Definition portal_query : list (str * str) :=
  [(u "state", u "user"); (u "type", u "8");
   (u "topitem", u "pruefungen"); (u "breadCrumbSource", u "portal")].

Definition requests (USER PASSWORD lt res_link : str) : list event :=
  [Get CAS_URL []; Post CAS_URL (login_form USER PASSWORD lt);
   Get QIS_URL portal_query; Get res_link []].

(** What [str] gives for a record. *)
Definition exam_line {rt : Runtime} (r : Result) : str :=
  if Py.truthy (passed r) then passed_line r
  else u "Not yet passed: " ++ exam r.

(** The line that reports the GPA, and the two lines printed for it. *)
Definition gpa_line (gpa : float) : str :=
  u "Your GPA is: " ++ Py.format_fixed 2 gpa.

Definition gpa_report (gpa : float) : str :=
  gpa_line gpa ++ [NEWLINE] ++ repeat 45%N (length (gpa_line gpa)).

(** How a run with credentials ends, and what it did before. *)
Inductive run_case {rt : Runtime} (e : env) (USER PASSWORD : str)
  : io unit -> Prop :=
| run_no_ticket :
    tickets e = [] ->
    run_case e USER PASSWORD ([Get CAS_URL []], inl (Uncaught IndexError))
| run_no_link lt more diagnostic :
    tickets e = lt :: more ->
    notenspiegel e = None ->
    run_case e USER PASSWORD
      ([Get CAS_URL []; Post CAS_URL (login_form USER PASSWORD lt);
        Get QIS_URL portal_query; Print diagnostic],
       inl (SystemExit 1))
| run_table_raises lt more res_link x :
    tickets e = lt :: more ->
    notenspiegel e = Some res_link ->
    table_results (page_elements e) (page_cells e) = Raise x ->
    run_case e USER PASSWORD
      (requests USER PASSWORD lt res_link, inl (Uncaught x))
| run_gpa_raises lt more res_link results x :
    tickets e = lt :: more ->
    notenspiegel e = Some res_link ->
    table_results (page_elements e) (page_cells e) = OK results ->
    calc_gpa results = Raise x ->
    run_case e USER PASSWORD
      (requests USER PASSWORD lt res_link, inl (Uncaught x))
| run_completes lt more res_link results gpa :
    tickets e = lt :: more ->
    notenspiegel e = Some res_link ->
    table_results (page_elements e) (page_cells e) = OK results ->
    calc_gpa results = OK gpa ->
    run_case e USER PASSWORD
      (requests USER PASSWORD lt res_link
         ++ [Print (gpa_report gpa);
             Print (Py.join [NEWLINE] (List.map exam_line results))],
       inr tt).

(** The number of separators in a text. *)
Definition count_char (c : char) (s : str) : nat :=
  count_occ N.eq_dec s c.

(** Pages on which a run stops early. *)
Module Pages.

Definition credentials : option (str * str) := Some (u "user", u "secret").

(** The login page carries no ticket. *)
Definition no_ticket : env :=
  new_env credentials [] (Some (u "https://portal/notenspiegel"))
    (List.map new_Tag Sample.headers)
    (List.map new_Tag (Sample.row1 ++ Sample.row2)).

(** The portal page has no link to the results. *)
Definition no_link : env :=
  new_env credentials [u "LT-1-abc"] None
    (List.map new_Tag Sample.headers)
    (List.map new_Tag (Sample.row1 ++ Sample.row2)).

(** The results table has its header row and no data cell. *)
Definition no_cells : env :=
  new_env credentials [u "LT-1-abc"] (Some (u "https://portal/notenspiegel"))
    (List.map new_Tag Sample.headers) [].

(** One row, its status cell a no-break space. *)
Definition blank_status_row : list str :=
  [u "SS 21"; u "Logik"; u "5,0"; ects_template 54%N; [NBSP]].

Definition blank_status : env :=
  new_env credentials [u "LT-1-abc"] (Some (u "https://portal/notenspiegel"))
    (List.map new_Tag Sample.headers) (List.map new_Tag blank_status_row).

(** The sample headers followed by two more columns, and [row1] with
    cells for them. *)
Definition headers_wide : list str :=
  Sample.headers ++ [u "Versuch"; u "Datum"].

Definition row1_wide : list str :=
  Sample.row1 ++ [u "1"; u "12.02.2020"].

(** Headers without the credits column. *)
Definition headers_no_ects : list str :=
  [u "Semester"; Pruefungsname; u "Note"; u "Status"].

(** The results page has neither header cells nor data cells. *)
Definition no_headers : env :=
  new_env credentials [u "LT-1-abc"] (Some (u "https://portal/notenspiegel"))
    [] [].

(** A cell of a no-break space, a space and a line break. *)
Definition blank_tag : Tag := new_Tag [NBSP; SPACE; NEWLINE].

(** The line of [Sample.analysis]. *)
Definition analysis_line : str :=
  u "WS 19/20      Analysis                                 > 2.0 (6 ECTS)".

End Pages.

(** * Properties *)

(** ** The exception monad *)

Lemma bind_OK {A B : Type} (m : or_exn A) (f : A -> or_exn B) (b : B) :
  bind m f = OK b <-> exists a, m = OK a /\ f a = OK b.
Proof.
  destruct m as [a|e]; simpl; split.
  - intros H. exists a. auto.
  - intros [a' [Ha Hf]]. injection Ha as ->. exact Hf.
  - discriminate.
  - intros [a' [Ha _]]. discriminate.
Qed.

Lemma bind_assoc {A B C : Type} (m : or_exn A) (f : A -> or_exn B)
      (g : B -> or_exn C) :
  bind (bind m f) g = bind m (fun a => bind (f a) g).
Proof. destruct m; reflexivity. Qed.

Lemma fails_bind_l {A B : Type} (m : or_exn A) (f : A -> or_exn B) :
  fails m -> fails (bind m f).
Proof. intros [e ->]. exists e. reflexivity. Qed.

Lemma fails_bind_r {A B : Type} (m : or_exn A) (f : A -> or_exn B) :
  (forall a, m = OK a -> fails (f a)) -> fails (bind m f).
Proof.
  destruct m as [a|e]; simpl; intros H.
  - apply H. reflexivity.
  - exists e. reflexivity.
Qed.

Lemma mapM_OK_iff {A B : Type} (f : A -> or_exn B) (l : list A) (rs : list B) :
  mapM f l = OK rs <-> Forall2 (fun a r => f a = OK r) l rs.
Proof.
  revert rs. induction l as [|a l IH]; intros rs; simpl.
  - split.
    + intros H. injection H as <-. constructor.
    + intros H. inversion H. reflexivity.
  - split.
    + intros H. apply bind_OK in H. destruct H as [b [Hb H]].
      apply bind_OK in H. destruct H as [bs [Hbs H]].
      injection H as <-. constructor; [exact Hb | apply IH; exact Hbs].
    + intros H. inversion H as [|a' r l' rs' Hr Hrest]; subst.
      rewrite Hr. simpl. apply IH in Hrest. rewrite Hrest. reflexivity.
Qed.

Lemma mapM_fails_last {A B : Type} (f : A -> or_exn B) (l : list A) (a : A) :
  fails (f a) -> fails (mapM f (l ++ [a])).
Proof.
  intros Ha. induction l as [|x l IH]; simpl.
  - apply fails_bind_l. exact Ha.
  - apply fails_bind_r. intros b _. apply fails_bind_l. exact IH.
Qed.

Lemma mapM_raises_last {A B : Type} (f : A -> or_exn B) (l : list A) (a : A)
      (e : exn) :
  Forall (fun x => exists b, f x = OK b) l ->
  f a = Raise e ->
  mapM f (l ++ [a]) = Raise e.
Proof.
  intros Hl Ha. induction Hl as [|x l [b Hx] _ IH]; simpl.
  - rewrite Ha. reflexivity.
  - rewrite Hx, IH. reflexivity.
Qed.

(** ** Grouping *)

Lemma group_chunks (lst : list str) (n : nat) :
  (0 < n)%nat ->
  group lst n = OK (List.map (chunk lst n) (seq 0 ((length lst + n - 1) / n))).
Proof.
  intros Hn. unfold group, Py.range.
  destruct n as [|m]; [lia|]. simpl bind.
  rewrite List.map_map. f_equal.
  replace (length lst - 0 + S m - 1)%nat with (length lst + S m - 1)%nat by lia.
  apply List.map_ext. intros k. unfold Py.slice, chunk.
  f_equal. lia.
Qed.

Lemma count_exact (k n : nat) : (0 < n)%nat -> ((k * n + n - 1) / n = k)%nat.
Proof.
  intros Hn. replace (k * n + n - 1)%nat with (k * n + (n - 1))%nat by lia.
  rewrite Nat.div_add_l by lia. rewrite Nat.div_small by lia. lia.
Qed.

Lemma count_ragged (len n : nat) :
  (0 < n)%nat -> (len mod n <> 0)%nat ->
  ((len + n - 1) / n = S (len / n))%nat.
Proof.
  intros Hn Hr.
  pose proof (Nat.div_mod_eq len n) as E.
  pose proof (Nat.mod_upper_bound len n ltac:(lia)) as Hb.
  set (q := (len / n)%nat) in *. set (r := (len mod n)%nat) in *.
  replace (len + n - 1)%nat with (S q * n + (r - 1))%nat by (rewrite E; lia).
  rewrite Nat.div_add_l by lia. rewrite Nat.div_small by lia. lia.
Qed.

Lemma chunk_length_full (lst : list str) (n k : nat) :
  ((k + 1) * n <= length lst)%nat -> length (chunk lst n k) = n.
Proof.
  intros H. unfold chunk. rewrite length_firstn, length_skipn. lia.
Qed.

Lemma chunk_tail (lst : list str) (n : nat) :
  (0 < n)%nat ->
  chunk lst n (length lst / n) = skipn (length lst / n * n) lst
  /\ length (chunk lst n (length lst / n)) = (length lst mod n)%nat.
Proof.
  intros Hn.
  pose proof (Nat.div_mod_eq (length lst) n) as E.
  pose proof (Nat.mod_upper_bound (length lst) n ltac:(lia)) as Hb.
  assert (L : length (skipn (length lst / n * n) lst) = (length lst mod n)%nat).
  { rewrite length_skipn. lia. }
  unfold chunk. rewrite firstn_all2 by lia. split; [reflexivity | exact L].
Qed.

Lemma nth_error_chunks (lst : list str) (n count i : nat) :
  (i < count)%nat ->
  nth_error (List.map (chunk lst n) (seq 0 count)) i = Some (chunk lst n i).
Proof.
  intros Hi. rewrite nth_error_map.
  rewrite nth_error_seq. apply Nat.ltb_lt in Hi. rewrite Hi. reflexivity.
Qed.

Lemma Forall_chunks_full (lst : list str) (n count : nat) :
  (count * n <= length lst)%nat ->
  Forall (fun tup => length tup = n) (List.map (chunk lst n) (seq 0 count)).
Proof.
  intros H. apply Forall_forall. intros tup Hin.
  apply in_map_iff in Hin. destruct Hin as [i [<- Hi]].
  apply in_seq in Hi. apply chunk_length_full. nia.
Qed.

Section Extraction.

Context {rt : Runtime}.

Ltac row_steps :=
  repeat match goal with
    | H : OK _ = Raise _ |- _ => discriminate H
    | |- fails (Raise _) => eexists; reflexivity
    | |- fails (bind (Raise _) _) => eexists; reflexivity
    | |- fails (bind (OK _) _) => cbn [bind]
    | |- fails (bind ?m _) => destruct m eqn:?
    end.

(** A row shorter than the position of a label it must supply does
    not build. *)
Lemma row_result_out_of_range (elements tup : list str) (label : str) (i : nat) :
  In label required_labels ->
  Py.index label elements = OK i ->
  (length tup <= i)%nat ->
  fails (row_result elements tup).
Proof.
  intros Hin Hidx Hlen.
  assert (Hget : Py.getitem tup i = Raise IndexError).
  { unfold Py.getitem. apply nth_error_None in Hlen. rewrite Hlen. reflexivity. }
  unfold required_labels in Hin. simpl in Hin.
  unfold row_result.
  destruct Hin as [<-|[<-|[<-|[<-|[<-|[]]]]]];
    rewrite Hidx; row_steps.
Qed.

(** C1 (amended).  For a header sequence with at least one label and a
    flat sequence of normalized cells of length [k] times the header
    count, grouping yields exactly [k] groups, the [i]-th being the
    [i]-th consecutive run of header-count cells; the extraction
    returns records exactly when every group builds one, and then
    there are [k] of them, the [i]-th built from the [i]-th group. *)
Theorem table_results_uniform (elements raw_results : list str) (k : nat) :
  (0 < length elements)%nat ->
  length raw_results = (k * length elements)%nat ->
  exists res_tuples,
    group raw_results (length elements) = OK res_tuples
    /\ length res_tuples = k
    /\ (forall i, (i < k)%nat ->
         nth_error res_tuples i = Some (chunk raw_results (length elements) i))
    /\ Forall (fun tup => length tup = length elements) res_tuples
    /\ (forall results,
         table_results elements raw_results = OK results <->
         Forall2 (fun tup r => row_result elements tup = OK r)
           res_tuples results)
    /\ (forall results,
         table_results elements raw_results = OK results ->
         length results = k).
Proof.
  intros Hn Hlen.
  set (n := length elements) in *.
  exists (List.map (chunk raw_results n) (seq 0 k)).
  assert (G : group raw_results n
              = OK (List.map (chunk raw_results n) (seq 0 k))).
  { rewrite group_chunks by exact Hn. rewrite Hlen, count_exact by exact Hn.
    reflexivity. }
  assert (T : forall results,
             table_results elements raw_results = OK results <->
             Forall2 (fun tup r => row_result elements tup = OK r)
               (List.map (chunk raw_results n) (seq 0 k)) results).
  { intros results. unfold table_results. fold n. rewrite G. cbn [bind].
    apply mapM_OK_iff. }
  split; [exact G|].
  split; [rewrite length_map, length_seq; reflexivity|].
  split; [intros i Hi; apply nth_error_chunks; exact Hi|].
  split; [apply Forall_chunks_full; lia|].
  split; [exact T|].
  intros results H. apply T in H. apply Forall2_length in H.
  rewrite length_map, length_seq in H. symmetry. exact H.
Qed.

(** C10.  When the number of cells is not a multiple of the header
    count [n > 0], grouping still returns: the full groups of [n] cells
    and then one shorter group holding the remaining [len mod n] cells.
    Record construction raises on that last group as soon as a required
    label sits at a header position the group does not have, and the
    extraction then raises as well; when the full groups all build,
    the exception of the extraction is the one the last group raised. *)
Theorem group_ragged (elements raw_results : list str) :
  (0 < length elements)%nat ->
  (length raw_results mod length elements <> 0)%nat ->
  exists full tail,
    group raw_results (length elements) = OK (full ++ [tail])
    /\ length full = (length raw_results / length elements)%nat
    /\ Forall (fun tup => length tup = length elements) full
    /\ (forall i, (i < length raw_results / length elements)%nat ->
         nth_error full i = Some (chunk raw_results (length elements) i))
    /\ tail = skipn (length raw_results / length elements * length elements)
                raw_results
    /\ length tail = (length raw_results mod length elements)%nat
    /\ (forall label i,
         In label required_labels ->
         Py.index label elements = OK i ->
         (length tail <= i)%nat ->
         fails (row_result elements tail)
         /\ fails (table_results elements raw_results))
    /\ (forall e,
         Forall (fun tup => exists r, row_result elements tup = OK r) full ->
         row_result elements tail = Raise e ->
         table_results elements raw_results = Raise e).
Proof.
  intros Hn Hr.
  set (n := length elements) in *.
  set (q := (length raw_results / n)%nat).
  exists (List.map (chunk raw_results n) (seq 0 q)), (chunk raw_results n q).
  assert (G : group raw_results n
              = OK (List.map (chunk raw_results n) (seq 0 q)
                      ++ [chunk raw_results n q])).
  { rewrite group_chunks by exact Hn. rewrite count_ragged by assumption.
    fold q. rewrite seq_S, List.map_app. reflexivity. }
  destruct (chunk_tail raw_results Hn) as [Ht Hl]. fold q in Ht, Hl.
  pose proof (Nat.div_mod_eq (length raw_results) n) as E. fold q in E.
  split; [exact G|].
  split; [rewrite length_map, length_seq; reflexivity|].
  split; [apply Forall_chunks_full; lia|].
  split; [intros i Hi; apply nth_error_chunks; exact Hi|].
  split; [exact Ht|].
  split; [exact Hl|].
  split.
  - intros label i Hin Hidx Hi.
    assert (F : fails (row_result elements (chunk raw_results n q))).
    { apply row_result_out_of_range with (label := label) (i := i);
        assumption. }
    split; [exact F|].
    unfold table_results. fold n. rewrite G. cbn [bind].
    apply mapM_fails_last. exact F.
  - intros e Hfull He.
    unfold table_results. fold n. rewrite G. cbn [bind].
    apply mapM_raises_last; assumption.
Qed.

End Extraction.

(** ** Looking a field up by its header label *)

Lemma field_find (label : str) (elements tup : list str) :
  length elements = length tup ->
  field label elements tup
  = match find (fun p => str_eqb (fst p) label) (combine elements tup) with
    | Some p => OK (snd p)
    | None => Raise ValueError
    end.
Proof.
  revert tup. induction elements as [|y elements IH]; intros [|t tup] Hlen;
    try discriminate Hlen.
  - reflexivity.
  - injection Hlen as Hlen. unfold field in *. cbn [Py.index combine find fst].
    destruct (str_eqb y label).
    + reflexivity.
    + rewrite bind_assoc. cbn [bind]. rewrite <- (IH tup Hlen).
      destruct (Py.index label elements); reflexivity.
Qed.

Lemma find_hd_filter {A : Type} (p : A -> bool) (l : list A) :
  find p l = hd_error (filter p l).
Proof.
  induction l as [|a l IH]; simpl; [reflexivity|].
  destruct (p a); [reflexivity | exact IH].
Qed.

Lemma filter_permutation {A : Type} (p : A -> bool) (l l' : list A) :
  Permutation l l' -> Permutation (filter p l) (filter p l').
Proof.
  induction 1 as [|a l l' _ IH|a b l|l l' l'' _ IH1 _ IH2]; simpl.
  - constructor.
  - destruct (p a); [constructor|]; exact IH.
  - destruct (p a), (p b); try apply Permutation_refl. apply perm_swap.
  - eapply Permutation_trans; eassumption.
Qed.

Lemma find_permutation_unique {A : Type} (p : A -> bool) (l l' : list A) :
  Permutation l l' -> length (filter p l) = 1%nat -> find p l = find p l'.
Proof.
  intros HP H1. rewrite !find_hd_filter.
  apply (filter_permutation p) in HP.
  destruct (filter p l) as [|a [|b r]]; try discriminate H1.
  apply Permutation_length_1_inv in HP. rewrite HP. reflexivity.
Qed.

Lemma filter_combine_count (label : str) (elements tup : list str) :
  length elements = length tup ->
  length (filter (fun p => str_eqb (fst p) label) (combine elements tup))
  = count_occ str_eq_dec elements label.
Proof.
  revert tup. induction elements as [|y elements IH]; intros [|t tup] Hlen;
    try discriminate Hlen; [reflexivity|].
  injection Hlen as Hlen. cbn [combine filter fst count_occ]. unfold str_eqb.
  destruct (str_eq_dec y label); cbn [length]; rewrite <- (IH tup Hlen);
    reflexivity.
Qed.

Lemma field_permutation (label : str) (elements tup elements' tup' : list str) :
  length elements = length tup ->
  length elements' = length tup' ->
  Permutation (combine elements tup) (combine elements' tup') ->
  count_occ str_eq_dec elements label = 1%nat ->
  field label elements' tup' = field label elements tup.
Proof.
  intros Hl Hl' HP H1.
  rewrite !field_find by assumption.
  rewrite (find_permutation_unique _ HP); [reflexivity|].
  rewrite filter_combine_count by assumption. exact H1.
Qed.

(** ** Splitting on a separator *)

Lemma split_nonempty (sep : char) (s : str) : Py.split sep s <> [].
Proof.
  destruct s as [|c s]; simpl; [discriminate|].
  destruct (c =? sep)%N; [discriminate|].
  destruct (Py.split sep s); discriminate.
Qed.

Lemma split_first (sep : char) (a t : str) :
  ~ In sep a -> Py.split sep (a ++ sep :: t) = a :: Py.split sep t.
Proof.
  induction a as [|c a IH]; intros Hn; simpl.
  - rewrite N.eqb_refl. reflexivity.
  - destruct (N.eqb_spec c sep) as [->|Hc].
    + exfalso. apply Hn. left. reflexivity.
    + rewrite IH; [reflexivity|]. intros Hin. apply Hn. right. exact Hin.
Qed.

Lemma split_nosep (sep : char) (a : str) :
  ~ In sep a -> Py.split sep a = [a].
Proof.
  induction a as [|c a IH]; intros Hn; simpl; [reflexivity|].
  destruct (N.eqb_spec c sep) as [->|Hc].
  - exfalso. apply Hn. left. reflexivity.
  - rewrite IH; [reflexivity|]. intros Hin. apply Hn. right. exact Hin.
Qed.

Lemma split_inv (sep : char) (s seg : str) (rest : list str) :
  Py.split sep s = seg :: rest ->
  ~ In sep seg
  /\ ((rest = [] /\ s = seg)
      \/ exists t, s = seg ++ sep :: t /\ rest = Py.split sep t).
Proof.
  revert seg rest. induction s as [|c s IH]; intros seg rest H; simpl in H.
  - injection H as <- <-. split; [intros []|]. left. split; reflexivity.
  - destruct (N.eqb_spec c sep) as [->|Hc].
    + injection H as <- <-. split; [intros []|].
      right. exists s. split; reflexivity.
    + destruct (Py.split sep s) as [|seg' rest'] eqn:E.
      * exfalso. exact (split_nonempty _ _ E).
      * injection H as <- <-.
        destruct (IH seg' rest' eq_refl) as [Hn [[-> ->]|[t [-> ->]]]].
        -- split; [intros [Hin|Hin]; [congruence | exact (Hn Hin)]|].
           left. split; reflexivity.
        -- split; [intros [Hin|Hin]; [congruence | exact (Hn Hin)]|].
           right. exists t. split; reflexivity.
Qed.

Lemma last_char_OK (s d : str) :
  Py.last_char s = OK d <-> exists pre c, s = pre ++ [c] /\ d = [c].
Proof.
  unfold Py.last_char. split.
  - destruct (rev s) as [|c r] eqn:E; [discriminate|]. intros H.
    injection H as <-. exists (rev r), c. split; [|reflexivity].
    rewrite <- (rev_involutive s), E. reflexivity.
  - intros [pre [c [-> ->]]]. rewrite rev_app_distr. reflexivity.
Qed.

Lemma parse_ects_OK (ectss d : str) :
  parse_ects ectss = OK d <->
  exists a b pre c tail,
    ectss = a ++ DOT :: b ++ DOT :: pre ++ c :: tail
    /\ ~ In DOT a /\ ~ In DOT b /\ ~ In DOT (pre ++ [c])
    /\ (tail = [] \/ hd_error tail = Some DOT)
    /\ d = [c].
Proof.
  unfold parse_ects, Py.getitem. split.
  - intros H.
    destruct (Py.split DOT ectss) as [|s1 rest1] eqn:E1;
      [discriminate H|].
    apply split_inv in E1. destruct E1 as [N1 [[-> _]|[t1 [-> ->]]]];
      [discriminate H|].
    destruct (Py.split DOT t1) as [|s2 rest2] eqn:E2;
      [discriminate H|].
    apply split_inv in E2. destruct E2 as [N2 [[-> _]|[t2 [-> ->]]]];
      [discriminate H|].
    destruct (Py.split DOT t2) as [|s3 rest3] eqn:E3;
      [discriminate H|].
    cbn [nth_error bind] in H.
    apply last_char_OK in H. destruct H as [pre [c [-> ->]]].
    apply split_inv in E3. destruct E3 as [N3 [[_ ->]|[t3 [-> _]]]].
    + exists s1, s2, pre, c, []. repeat split; auto.
    + exists s1, s2, pre, c, (DOT :: t3). repeat split; auto.
      rewrite <- app_assoc. reflexivity.
  - intros [a [b [pre [c [tail [-> [Na [Nb [Np [Ht ->]]]]]]]]]].
    rewrite split_first by exact Na. rewrite split_first by exact Nb.
    assert (E : exists rest, Py.split DOT (pre ++ c :: tail) = (pre ++ [c]) :: rest).
    { destruct Ht as [->|Ht].
      - exists []. apply split_nosep. exact Np.
      - destruct tail as [|x t]; [discriminate Ht|]. injection Ht as ->.
        exists (Py.split DOT t).
        change (pre ++ c :: DOT :: t) with (pre ++ [c] ++ DOT :: t).
        rewrite app_assoc. apply split_first. exact Np. }
    destruct E as [rest ->]. cbn [nth_error bind].
    apply last_char_OK. exists pre, c. split; reflexivity.
Qed.

Section Fields.

Context {rt : Runtime}.

(** [row_result] written with the five lookups. *)
Lemma row_result_fields (elements tup : list str) :
  row_result elements tup
  = (semester <- field (u "Semester") elements tup ;;
     exam <- field Pruefungsname elements tup ;;
     cell <- field (u "Note") elements tup ;;
     grade <- float_of_str (Py.replace COMMA DOT cell) ;;
     cell <- field (u "ECTS") elements tup ;;
     digit <- parse_ects cell ;;
     ects <- int_of_str digit ;;
     passed <- field (u "Status") elements tup ;;
     OK (new_Result semester exam grade ects passed)).
Proof.
  unfold row_result, field.
  repeat (rewrite bind_assoc;
          match goal with
          | |- bind ?m _ = bind ?m _ =>
              destruct m; cbn [bind]; [|reflexivity]
          end;
          match goal with
          | |- bind ?m _ = bind ?m _ =>
              destruct m; cbn [bind]; [|reflexivity]
          end;
          repeat match goal with
            | |- bind ?m _ = bind ?m _ =>
                lazymatch m with
                | bind _ _ => fail
                | _ => destruct m; cbn [bind]; [|reflexivity]
                end
            end).
  reflexivity.
Qed.



(** C4 (amended).  When each of the five required labels occurs
    exactly once among the headers, a row of the header's width
    resolves to the same record, or raises the same exception, after
    any reordering applied to the headers and the row's cells together. *)
Theorem row_result_permutation (elements tup elements' tup' : list str) :
  length elements = length tup ->
  length elements' = length tup' ->
  Permutation (combine elements tup) (combine elements' tup') ->
  (forall label, In label required_labels ->
                 count_occ str_eq_dec elements label = 1%nat) ->
  row_result elements' tup' = row_result elements tup.
Proof.
  intros Hl Hl' HP Hu.
  assert (F : forall label, In label required_labels ->
              field label elements' tup' = field label elements tup).
  { intros label Hin. apply field_permutation; auto. }
  rewrite !row_result_fields.
  rewrite !F by (unfold required_labels; simpl; tauto).
  reflexivity.
Qed.

End Fields.

(** ** The grade-point average *)

Lemma float_of_int_in_range (n : Z) :
  float_range n -> Py.float_of_int n = OK (Py.nearest_float n).
Proof.
  unfold float_range, Py.float_of_int. intros H.
  apply Z.ltb_lt in H. rewrite H. reflexivity.
Qed.

Lemma float_of_int_0 : Py.float_of_int 0 = OK 0%float.
Proof. vm_compute. reflexivity. Qed.

Lemma calc_gpa_step_skipped (acc : Py.number * Z) (res : Result) :
  passed res = [] -> calc_gpa_step acc res = OK acc.
Proof.
  intros H. unfold calc_gpa_step. destruct acc. rewrite H. reflexivity.
Qed.

Lemma calc_gpa_step_counted (sum_grade : Py.number) (sum_ects : Z) (res : Result) :
  passed res <> [] ->
  calc_gpa_step (sum_grade, sum_ects) res
  = (g <- Py.mul_float_int (grade res) (ects res) ;;
     sum_grade' <- Py.add_float sum_grade g ;;
     OK (sum_grade', (sum_ects + ects res)%Z)).
Proof.
  intros H. unfold calc_gpa_step. destruct (passed res); [contradiction|].
  reflexivity.
Qed.

Lemma truthy_false (s : str) : Py.truthy s = false <-> s = [].
Proof. destruct s; simpl; split; intros H; try reflexivity; discriminate. Qed.

Lemma truthy_true (s : str) : Py.truthy s = true <-> s <> [].
Proof.
  destruct s; simpl; split; intros H; try reflexivity; try discriminate.
  contradiction.
Qed.

Lemma calc_gpa_loop_none_passed (results : list Result) (acc : Py.number * Z) :
  Forall (fun r => passed r = []) results ->
  calc_gpa_loop results acc = OK acc.
Proof.
  induction 1 as [|r rs Hr _ IH]; simpl; [reflexivity|].
  rewrite calc_gpa_step_skipped by exact Hr. exact IH.
Qed.

Lemma calc_gpa_loop_passed_only (results : list Result) (acc : Py.number * Z) :
  calc_gpa_loop results acc = calc_gpa_loop (passed_records results) acc.
Proof.
  revert acc. induction results as [|r rs IH]; intros acc; simpl; [reflexivity|].
  destruct (Py.truthy (passed r)) eqn:E.
  - simpl. destruct (calc_gpa_step acc r); simpl; [apply IH | reflexivity].
  - apply truthy_false in E. rewrite calc_gpa_step_skipped by exact E.
    simpl. apply IH.
Qed.

Lemma calc_gpa_loop_float (ps : list Result) (s : float) (z : Z) :
  Forall (fun r => Py.truthy (passed r) = true) ps ->
  Forall (fun r => float_range (ects r)) ps ->
  calc_gpa_loop ps (Py.Float s, z)
  = OK (Py.Float
          (fold_left (fun s r => (s + grade r * Py.nearest_float (ects r))%float)
             ps s),
        fold_left (fun s r => (s + ects r)%Z) ps z).
Proof.
  intros HP HR. revert s z.
  induction ps as [|r ps IH]; intros s z; simpl; [reflexivity|].
  inversion HP as [|? ? Hp HP']; subst. inversion HR as [|? ? Hr HR']; subst.
  unfold calc_gpa_step. rewrite Hp. unfold Py.mul_float_int.
  rewrite float_of_int_in_range by exact Hr. simpl.
  apply IH; assumption.
Qed.

Lemma calc_gpa_loop_start (ps : list Result) :
  Forall (fun r => Py.truthy (passed r) = true) ps ->
  Forall (fun r => float_range (ects r)) ps ->
  ps <> [] ->
  calc_gpa_loop ps (Py.Int 0, 0%Z) = OK (Py.Float (weighted_sum ps), credit_sum ps).
Proof.
  intros HP HR Hne. destruct ps as [|r ps]; [contradiction|].
  inversion HP as [|? ? Hp HP']; subst. inversion HR as [|? ? Hr HR']; subst.
  cbn [calc_gpa_loop]. unfold calc_gpa_step. rewrite Hp.
  unfold Py.mul_float_int. rewrite float_of_int_in_range by exact Hr.
  cbn [bind]. unfold Py.add_float, Py.to_float. rewrite float_of_int_0.
  cbn [bind]. rewrite calc_gpa_loop_float by assumption. reflexivity.
Qed.

Lemma passed_records_truthy (results : list Result) :
  Forall (fun r => Py.truthy (passed r) = true) (passed_records results).
Proof.
  apply Forall_forall. intros r Hin. unfold passed_records in Hin.
  apply filter_In in Hin. exact (proj2 Hin).
Qed.

(** C2 (amended).  When the credits of the passed records are ints a
    float can hold and their sum is not zero, the computed GPA is the sum
    over the passed records of grade times credits divided by the sum
    over the passed records of the credits, in binary64 arithmetic;
    records that are not passed enter neither sum.  Two passed records
    with grade 2.0 and 6 credits and grade 4.0 and 3 credits give 24/9. *)
Theorem calc_gpa_weighted_mean :
  (forall results,
      credit_sum (passed_records results) <> 0%Z ->
      Forall (fun r => float_range (ects r)) (passed_records results) ->
      float_range (credit_sum (passed_records results)) ->
      calc_gpa results = OK (gpa_spec results))
  /\ (forall semester1 exam1 passed1 semester2 exam2 passed2,
         passed1 <> [] -> passed2 <> [] ->
         calc_gpa [new_Result semester1 exam1 2 6 passed1;
                   new_Result semester2 exam2 4 3 passed2]
         = OK (24 / 9)%float).
Proof.
  split.
  - intros results Hsum Hr Hs. unfold calc_gpa.
    rewrite calc_gpa_loop_passed_only.
    assert (Hne : passed_records results <> []).
    { intros E. rewrite E in Hsum. apply Hsum. reflexivity. }
    rewrite calc_gpa_loop_start; auto using passed_records_truthy.
    cbn [bind fst snd]. unfold Py.truediv.
    destruct (Z.eqb_spec (credit_sum (passed_records results)) 0);
      [contradiction|].
    rewrite float_of_int_in_range by exact Hs. reflexivity.
  - intros s1 e1 [|c1 p1] s2 e2 [|c2 p2] H1 H2; try contradiction.
    vm_compute. reflexivity.
Qed.

(** C5.  When no record is passed, [calc_gpa] divides the int 0 by the
    int 0 and raises [ZeroDivisionError]. *)
Theorem calc_gpa_none_passed (results : list Result) :
  Forall (fun r => passed r = []) results ->
  calc_gpa results = Raise ZeroDivisionError.
Proof.
  intros H. unfold calc_gpa. rewrite calc_gpa_loop_none_passed by exact H.
  reflexivity.
Qed.

(** ** Rendering and the pass status *)

Lemma pad_left_length (w : nat) (s : str) :
  length (Py.pad (Some (Py.AlignLeft, w)) s) = Nat.max w (length s).
Proof. simpl. rewrite length_app, repeat_length. lia. Qed.

Lemma io_bind_prefix {A B : Type} (m : io A) (f : A -> io B) :
  exists rest, fst (io_bind m f) = fst m ++ rest.
Proof.
  destruct m as [t [s|a]]; simpl.
  - exists []. rewrite app_nil_r. reflexivity.
  - destruct (f a) as [t' r]. exists t'. reflexivity.
Qed.

Lemma io_bind_assoc {A B C : Type} (m : io A) (f : A -> io B) (g : B -> io C) :
  io_bind (io_bind m f) g = io_bind m (fun a => io_bind (f a) g).
Proof.
  destruct m as [t [s|a]]; simpl; [reflexivity|].
  destruct (f a) as [t' [s|b]]; simpl; [reflexivity|].
  destruct (g b) as [t'' r]. rewrite app_assoc. reflexivity.
Qed.

Section Rendering.

Context {rt : Runtime}.

Lemma Result_str_passed (self : Result) :
  passed self <> [] -> Result_str self = OK (passed_line self).
Proof.
  intros H. unfold Result_str. apply truthy_true in H. rewrite H.
  unfold passed_template, passed_line. cbn [Py.format bind Py.pad].
  rewrite Nat.sub_0_l. cbn [repeat]. rewrite !app_nil_r, <- !app_assoc.
  reflexivity.
Qed.

Lemma Result_str_failed (self : Result) :
  passed self = [] -> Result_str self = OK (u "Not yet passed: " ++ exam self).
Proof.
  intros H. unfold Result_str. rewrite H. cbn [Py.truthy].
  unfold failed_template. cbn [Py.format bind Py.pad].
  rewrite app_nil_r. reflexivity.
Qed.

(** C7.  Rendering is decided by the pass status.  A passed record
    renders as the semester in a field of 14 characters, the exam name
    in a field of 40 (text first, spaces after it, nothing cut), then
    [ > ], the grade, and the credits as [(n ECTS)]; a record that is
    not passed renders as [Not yet passed: ] and the exam name, and
    nothing else. *)
Theorem Result_str_by_status (self : Result) :
  (passed self <> [] ->
   Result_str self
   = OK (Py.pad (Some (Py.AlignLeft, 14%nat)) (semester self)
         ++ Py.pad (Some (Py.AlignLeft, 40%nat)) (exam self)
         ++ u " > " ++ str_of_float (grade self)
         ++ u " (" ++ Py.str_of_int (ects self) ++ u " ECTS)")
   /\ Py.pad (Some (Py.AlignLeft, 14%nat)) (semester self)
      = semester self ++ repeat SPACE (14 - length (semester self))
   /\ Py.pad (Some (Py.AlignLeft, 40%nat)) (exam self)
      = exam self ++ repeat SPACE (40 - length (exam self))
   /\ length (Py.pad (Some (Py.AlignLeft, 14%nat)) (semester self))
      = Nat.max 14 (length (semester self))
   /\ length (Py.pad (Some (Py.AlignLeft, 40%nat)) (exam self))
      = Nat.max 40 (length (exam self)))
  /\ (passed self = [] ->
      Result_str self = OK (u "Not yet passed: " ++ exam self)).
Proof.
  split.
  - intros H. rewrite Result_str_passed by exact H.
    split.
    { unfold passed_line. cbn [Py.pad]. rewrite <- !app_assoc. reflexivity. }
    split; [reflexivity|]. split; [reflexivity|].
    split; apply pad_left_length.
  - apply Result_str_failed.
Qed.

Lemma row_result_status (elements tup : list str) (r : Result) :
  row_result elements tup = OK r ->
  field (u "Status") elements tup = OK (passed r).
Proof.
  intros H. rewrite row_result_fields in H.
  repeat match type of H with
    | bind ?m _ = OK _ =>
        let a := fresh "a" in let E := fresh "E" in
        destruct m as [a|] eqn:E; cbn [bind] in H; [|discriminate H]
    end.
  injection H as <-. reflexivity.
Qed.

(** C9.  A record's pass status is the text of its Status cell, used
    for its truth value: the GPA loop counts a record, and rendering
    shows it as passed, exactly when that text is not empty.  A status
    text that says failed therefore counts as passed. *)
Theorem passed_is_status_truthiness :
  (forall elements tup r,
      row_result elements tup = OK r ->
      field (u "Status") elements tup = OK (passed r))
  /\ (forall acc r, passed r = [] -> calc_gpa_step acc r = OK acc)
  /\ (forall sum_grade sum_ects r,
        passed r <> [] ->
        calc_gpa_step (sum_grade, sum_ects) r
        = (g <- Py.mul_float_int (grade r) (ects r) ;;
           sum_grade' <- Py.add_float sum_grade g ;;
           OK (sum_grade', (sum_ects + ects r)%Z)))
  /\ (forall results,
        calc_gpa results
        = calc_gpa (filter (fun r => negb (str_eqb (passed r) [])) results))
  /\ (forall r, passed r <> [] -> Result_str r = OK (passed_line r))
  /\ (forall r, passed r = [] ->
                Result_str r = OK (u "Not yet passed: " ++ exam r))
  /\ calc_gpa [Sample.failed] = OK 5%float
  /\ Result_str Sample.failed = OK (passed_line Sample.failed).
Proof.
  split; [exact row_result_status|].
  split; [exact calc_gpa_step_skipped|].
  split; [exact calc_gpa_step_counted|].
  split.
  { intros results. unfold calc_gpa.
    rewrite calc_gpa_loop_passed_only. unfold passed_records.
    erewrite filter_ext; [reflexivity|].
    intros r. simpl. unfold str_eqb.
    destruct (str_eq_dec (passed r) []) as [E|E].
    - rewrite E. reflexivity.
    - apply truthy_true in E. rewrite E. reflexivity. }
  split; [exact Result_str_passed|].
  split; [exact Result_str_failed|].
  split; [vm_compute; reflexivity|].
  apply Result_str_passed. discriminate.
Qed.

(** ** The credentials bootstrap *)

(** C8.  Without importable credentials the script writes the template
    settings file, prints a diagnostic and exits with status 1; with
    credentials of which one is empty it prints a diagnostic and exits
    with status 1.  Neither run performs a request.  With both
    credentials set, the first thing the script does is the request of
    the login page. *)
Theorem bootstrap_exits_before_requests (e : env) :
  (secrets e = None ->
   exists diagnostic,
     main e = ([WriteFile (u "secrets.py")
                  (u "USER = ''" ++ [NEWLINE] ++ u "PASSWORD = ''");
                Print diagnostic],
               inl (SystemExit 1))
     /\ no_request (fst (main e)) = true)
  /\ (forall USER PASSWORD,
         secrets e = Some (USER, PASSWORD) ->
         USER = [] \/ PASSWORD = [] ->
         main e = ([Print (u "Please maintain your credentials.")],
                   inl (SystemExit 1))
         /\ no_request (fst (main e)) = true)
  /\ (forall USER PASSWORD,
         secrets e = Some (USER, PASSWORD) ->
         USER <> [] -> PASSWORD <> [] ->
         exists rest, fst (main e) = Get CAS_URL [] :: rest).
Proof.
  split; [|split].
  - intros H. unfold main, bootstrap. rewrite H.
    eexists. split; reflexivity.
  - intros USER PASSWORD H Hempty. unfold main, bootstrap. rewrite H.
    assert (E : negb (Py.truthy USER) || negb (Py.truthy PASSWORD) = true).
    { destruct Hempty as [-> | ->]; simpl; [reflexivity|].
      apply orb_true_r. }
    rewrite E. split; reflexivity.
  - intros USER PASSWORD H HU HP. unfold main, bootstrap. rewrite H.
    apply truthy_true in HU, HP. rewrite HU, HP. cbn [negb orb].
    unfold ret. cbn [io_bind fst snd].
    match goal with
    | |- context [let (t', r) := ?x in _] =>
        replace x with (run e USER PASSWORD) by reflexivity
    end.
    unfold run, login. rewrite io_bind_assoc.
    match goal with
    | |- context [io_bind (perform ?ev) ?f] =>
        destruct (io_bind_prefix (perform ev) f) as [rest Hrest]
    end.
    destruct (io_bind _ _) as [t' r]. cbn [fst perform app] in *.
    exists rest. exact Hrest.
Qed.

End Rendering.

(** ** Trimming and normalizing a cell *)




Lemma lstrip_spec (s : str) :
  exists before,
    s = before ++ Py.lstrip s
    /\ forallb Py.isspace before = true
    /\ match Py.lstrip s with
       | [] => True
       | c :: _ => Py.isspace c = false
       end.
Proof.
  induction s as [|c s [before [E [Hb Hh]]]]; simpl.
  - exists []. repeat split.
  - destruct (Py.isspace c) eqn:Hc.
    + exists (c :: before). simpl. rewrite Hc, Hb, <- E. repeat split. exact Hh.
    + exists []. repeat split. exact Hc.
Qed.

Lemma forallb_rev {A : Type} (p : A -> bool) (l : list A) :
  forallb p (rev l) = forallb p l.
Proof.
  induction l as [|a l IH]; simpl; [reflexivity|].
  rewrite forallb_app, IH. simpl. rewrite andb_true_r. apply andb_comm.
Qed.

(** What [s.strip()] leaves: the text between the whitespace at both
    ends, itself neither starting nor ending with whitespace. *)
Lemma strip_spec (s : str) :
  exists before after,
    s = before ++ Py.strip s ++ after
    /\ forallb Py.isspace before = true
    /\ forallb Py.isspace after = true
    /\ match Py.strip s with
       | [] => True
       | c :: _ => Py.isspace c = false
       end
    /\ match rev (Py.strip s) with
       | [] => True
       | c :: _ => Py.isspace c = false
       end.
Proof.
  destruct (lstrip_spec s) as [before [E [Hb Hh]]].
  destruct (lstrip_spec (rev (Py.lstrip s))) as [rafter [E' [Ha Hl]]].
  exists before, (rev rafter).
  assert (M : Py.lstrip s = Py.strip s ++ rev rafter).
  { unfold Py.strip, Py.rstrip. rewrite <- rev_app_distr, <- E'.
    symmetry. apply rev_involutive. }
  split; [rewrite <- M; exact E|].
  split; [exact Hb|].
  split; [rewrite forallb_rev; exact Ha|].
  split.
  - destruct (Py.strip s) as [|c t] eqn:S; [exact I|].
    rewrite M in Hh. exact Hh.
  - unfold Py.strip, Py.rstrip. rewrite rev_involutive. exact Hl.
Qed.


(** No decomposition of the table contains U+00A0. *)
Lemma assoc_In (c : char) (table : list (char * list char)) (d : list char) :
  assoc c table = Some d -> In (c, d) table.
Proof.
  induction table as [|[k v] table IH]; simpl; [discriminate|].
  destruct (N.eqb_spec k c) as [->|_].
  - intros H. injection H as ->. left. reflexivity.
  - intros H. right. exact (IH H).
Qed.


Section Normalization.

Context {rt : Runtime}.

Lemma In_reorder_insert (x c : char) (racc : list char) :
  In x (reorder_insert c racc) <-> x = c \/ In x racc.
Proof.
  induction racc as [|d r IH]; simpl.
  - intuition auto.
  - destruct ((0 <? combining c) && (combining c <? combining d))%N; simpl.
    + rewrite IH. intuition auto.
    + intuition auto.
Qed.

Lemma In_canonical_order (x : char) (s : str) :
  In x (canonical_order s) <-> In x s.
Proof.
  unfold canonical_order. rewrite <- in_rev.
  assert (G : forall acc,
             In x (fold_left (fun racc c => reorder_insert c racc) s acc)
             <-> In x s \/ In x acc).
  { induction s as [|c s IH]; intros acc; simpl.
    - intuition auto.
    - rewrite IH, In_reorder_insert. intuition auto. }
  rewrite G. simpl. intuition auto.
Qed.






End Normalization.

(** ** Instances on the sample data *)

(** The whole script on the sample page: the four requests, the GPA
    line with its underline, the two exam lines. *)
Example sample_run :
  @main latin1_runtime (Sample.page (Some (u "user", u "secret")))
  = ([Get CAS_URL [];
      Post CAS_URL
        [(u "username", u "user"); (u "password", u "secret");
         (u "lt", u "LT-1-abc"); (u "execution", u "e1s1");
         (u "_eventId", u "submit"); (u "submit", u "Login")];
      Get QIS_URL
        [(u "state", u "user"); (u "type", u "8");
         (u "topitem", u "pruefungen"); (u "breadCrumbSource", u "portal")];
      Get (u "https://portal/notenspiegel") [];
      Print (u "Your GPA is: 1.96" ++ [NEWLINE] ++ u "-----------------");
      Print (u "WS 19/20      Analysis                                 > 2.3 (6 ECTS)"
             ++ [NEWLINE]
             ++ u "SS 20         Algebra                                  > 1.7 (8 ECTS)")],
     inr tt).
Proof. vm_compute. reflexivity. Qed.

(** The decoder keeps one character: twelve credits decode as 2. *)
Example parse_ects_two_digits :
  parse_ects (u "<!-- document.write(Math.round(12.0*10)/10); //-->")
  = OK (u "2").
Proof. reflexivity. Qed.

Lemma table_results_uniform_witness :
  (0 < length Sample.headers)%nat
  /\ length (Sample.row1 ++ Sample.row2) = (2 * length Sample.headers)%nat
  /\ forall results,
       @table_results latin1_runtime Sample.headers (Sample.row1 ++ Sample.row2)
       = OK results ->
       length results = 2%nat.
Proof.
  split; [simpl; lia|]. split; [reflexivity|].
  destruct (@table_results_uniform latin1_runtime Sample.headers
              (Sample.row1 ++ Sample.row2) 2) as [res_tuples H];
    [simpl; lia | reflexivity |].
  exact (proj2 (proj2 (proj2 (proj2 (proj2 H))))).
Defined.

(** With no header cell at all the grouping step is [range] with step
    zero, which raises: no records are produced, not even zero of them.
    With a header that lacks a required label, one cell under one header
    gives no record either. *)
Lemma table_results_empty_header :
  length (@nil str) = (0 * length (@nil str))%nat
  /\ @table_results latin1_runtime [] [] = Raise ValueError
  /\ ~ (exists results,
          @table_results latin1_runtime [] [] = OK results
          /\ length results = 0%nat)
  /\ length [u "WS 19/20"] = (1 * length [u "Semester"])%nat
  /\ @table_results latin1_runtime [u "Semester"] [u "WS 19/20"]
     = Raise ValueError.
Proof.
  split; [reflexivity|]. split; [reflexivity|].
  split; [intros [results [H _]]; discriminate H|].
  split; [reflexivity | vm_compute; reflexivity].
Qed.

Lemma group_ragged_witness :
  (0 < length Sample.headers)%nat
  /\ (length Sample.ragged_cells mod length Sample.headers <> 0)%nat
  /\ fails (@table_results latin1_runtime Sample.headers Sample.ragged_cells).
Proof.
  split; [simpl; lia|]. split; [simpl; lia|].
  destruct (@group_ragged latin1_runtime Sample.headers Sample.ragged_cells)
    as [full [tail [_ [_ [_ [_ [_ [Hl [H _]]]]]]]]]; [simpl; lia | simpl; lia |].
  apply (H (u "ECTS") 3%nat).
  - simpl. tauto.
  - reflexivity.
  - rewrite Hl. simpl. lia.
Defined.

Lemma calc_gpa_weighted_mean_witness :
  calc_gpa [Sample.analysis; Sample.pending; Sample.algebra]
  = OK (gpa_spec [Sample.analysis; Sample.pending; Sample.algebra]).
Proof.
  apply (proj1 calc_gpa_weighted_mean).
  - vm_compute. discriminate.
  - repeat constructor; vm_compute; reflexivity.
  - vm_compute. reflexivity.
Defined.

(** A passed record without credits: the list has a passed record and
    the division still raises. *)
Lemma calc_gpa_zero_credits :
  Py.truthy (passed Sample.seminar) = true
  /\ calc_gpa [Sample.seminar] = Raise ZeroDivisionError
  /\ ~ (exists gpa, calc_gpa [Sample.seminar] = OK gpa).
Proof.
  split; [reflexivity|]. split; [vm_compute; reflexivity|].
  intros [gpa H]. vm_compute in H. discriminate H.
Qed.


Lemma row_result_permutation_witness :
  @row_result latin1_runtime Sample.headers_swapped Sample.row1_swapped
  = @row_result latin1_runtime Sample.headers Sample.row1.
Proof.
  apply row_result_permutation.
  - reflexivity.
  - reflexivity.
  - simpl. apply perm_swap.
  - intros label Hin. simpl in Hin.
    destruct Hin as [<-|[<-|[<-|[<-|[<-|[]]]]]]; vm_compute; reflexivity.
Defined.

(** Two header cells with the same label: exchanging the two columns
    leaves the headers as they were and changes the resolved semester. *)
Lemma row_result_duplicate_label :
  (forall label, In label required_labels -> In label Sample.headers_twice)
  /\ length Sample.row_twice = length Sample.headers_twice
  /\ Permutation (combine Sample.headers_twice Sample.row_twice)
       (combine Sample.headers_twice Sample.row_twice_swapped)
  /\ @row_result latin1_runtime Sample.headers_twice Sample.row_twice_swapped
     <> @row_result latin1_runtime Sample.headers_twice Sample.row_twice.
Proof.
  split.
  { intros label Hin. simpl in Hin. simpl.
    destruct Hin as [<-|[<-|[<-|[<-|[<-|[]]]]]]; tauto. }
  split; [reflexivity|].
  split; [simpl; apply perm_swap|].
  vm_compute. intros H. discriminate H.
Qed.

Lemma calc_gpa_none_passed_witness :
  calc_gpa [Sample.pending; Sample.pending] = Raise ZeroDivisionError.
Proof.
  apply calc_gpa_none_passed. repeat constructor.
Defined.


Lemma Result_str_by_status_witness :
  @Result_str latin1_runtime Sample.analysis
  = OK (u "WS 19/20      Analysis                                 > 2.0 (6 ECTS)")
  /\ @Result_str latin1_runtime Sample.pending = OK (u "Not yet passed: Logik").
Proof.
  destruct (@Result_str_by_status latin1_runtime Sample.analysis) as [H _].
  destruct (@Result_str_by_status latin1_runtime Sample.pending) as [_ H'].
  split.
  - destruct H as [E _]; [discriminate|]. rewrite E. vm_compute. reflexivity.
  - rewrite H' by reflexivity. reflexivity.
Defined.

Lemma bootstrap_exits_before_requests_witness :
  snd (@main latin1_runtime (Sample.page None)) = inl (SystemExit 1)
  /\ no_request (fst (@main latin1_runtime (Sample.page None))) = true
  /\ @main latin1_runtime (Sample.page (Some (u "user", [])))
     = ([Print (u "Please maintain your credentials.")], inl (SystemExit 1))
  /\ exists rest,
       fst (@main latin1_runtime (Sample.page (Some (u "user", u "secret"))))
       = Get CAS_URL [] :: rest.
Proof.
  destruct (@bootstrap_exits_before_requests latin1_runtime (Sample.page None))
    as [H _].
  destruct (@bootstrap_exits_before_requests latin1_runtime
              (Sample.page (Some (u "user", []))))
    as [_ [H' _]].
  destruct (@bootstrap_exits_before_requests latin1_runtime
              (Sample.page (Some (u "user", u "secret"))))
    as [_ [_ H'']].
  destruct (H eq_refl) as [diagnostic [E N]].
  split; [rewrite E; reflexivity|].
  split; [exact N|].
  split; [exact (proj1 (H' (u "user") [] eq_refl (or_intror eq_refl)))|].
  apply (H'' (u "user") (u "secret") eq_refl); discriminate.
Defined.

Lemma passed_is_status_truthiness_witness :
  calc_gpa_step (Py.Int 0, 0%Z) Sample.pending = OK (Py.Int 0, 0%Z)
  /\ @Result_str latin1_runtime Sample.failed
     = OK (@passed_line latin1_runtime Sample.failed).
Proof.
  destruct (@passed_is_status_truthiness latin1_runtime)
    as [_ [H [_ [_ [H' _]]]]].
  split.
  - apply H. reflexivity.
  - apply H'. discriminate.
Defined.

(** * More properties of the script *)

(** ** The run, case by case *)

Lemma io_bind_ret_l {A B : Type} (a : A) (f : A -> io B) :
  io_bind (ret a) f = f a.
Proof. unfold ret. simpl. destruct (f a). reflexivity. Qed.

Lemma io_bind_perform {B : Type} (ev : event) (f : unit -> io B) :
  io_bind (perform ev) f = (ev :: fst (f tt), snd (f tt)).
Proof. unfold perform. simpl. destruct (f tt). reflexivity. Qed.

Lemma io_bind_lift_OK {A B : Type} (m : or_exn A) (a : A) (f : A -> io B) :
  m = OK a -> io_bind (lift m) f = f a.
Proof. intros ->. apply io_bind_ret_l. Qed.

Lemma io_bind_lift_Raise {A B : Type} (m : or_exn A) (x : exn) (f : A -> io B) :
  m = Raise x -> io_bind (lift m) f = ([], inl (Uncaught x)).
Proof. intros ->. reflexivity. Qed.

Section Script.

Context {rt : Runtime}.

Lemma Result_str_total (r : Result) : Result_str r = OK (exam_line r).
Proof.
  unfold exam_line. destruct (Py.truthy (passed r)) eqn:E.
  - apply Result_str_passed. apply truthy_true. exact E.
  - apply Result_str_failed. apply truthy_false. exact E.
Qed.

Lemma mapM_Result_str (results : list Result) :
  mapM Result_str results = OK (List.map exam_line results).
Proof.
  induction results as [|r rs IH]; simpl; [reflexivity|].
  rewrite Result_str_total, IH. reflexivity.
Qed.

Lemma print_exams_trace (results : list Result) :
  print_exams results
  = ([Print (Py.join [NEWLINE] (List.map exam_line results))], inr tt).
Proof.
  unfold print_exams.
  rewrite (io_bind_lift_OK _ (mapM_Result_str results)). reflexivity.
Qed.

Lemma main_with_credentials (e : env) (USER PASSWORD : str) :
  secrets e = Some (USER, PASSWORD) -> USER <> [] -> PASSWORD <> [] ->
  main e = run e USER PASSWORD.
Proof.
  intros H HU HP. unfold main, bootstrap. rewrite H.
  apply truthy_true in HU, HP. rewrite HU, HP. cbn [negb orb].
  rewrite io_bind_ret_l. reflexivity.
Qed.

Lemma login_no_ticket (e : env) (USER PASSWORD : str) :
  tickets e = [] ->
  login e USER PASSWORD = ([Get CAS_URL []], inl (Uncaught IndexError)).
Proof. intros H. unfold login. rewrite H. reflexivity. Qed.

Lemma login_ticket (e : env) (USER PASSWORD lt : str) (more : list str) :
  tickets e = lt :: more ->
  login e USER PASSWORD
  = ([Get CAS_URL []; Post CAS_URL (login_form USER PASSWORD lt)], inr tt).
Proof. intros H. unfold login. rewrite H. reflexivity. Qed.

Lemma parse_results_no_link (e : env) :
  notenspiegel e = None ->
  exists diagnostic,
    parse_results e
    = ([Get QIS_URL portal_query; Print diagnostic], inl (SystemExit 1)).
Proof. intros H. unfold parse_results. rewrite H. eexists. reflexivity. Qed.

Lemma parse_results_link (e : env) (res_link : str) :
  notenspiegel e = Some res_link ->
  parse_results e
  = match table_results (page_elements e) (page_cells e) with
    | OK results =>
        ([Get QIS_URL portal_query; Get res_link []], inr results)
    | Raise x =>
        ([Get QIS_URL portal_query; Get res_link []], inl (Uncaught x))
    end.
Proof.
  intros H. unfold parse_results. rewrite H.
  fold (page_elements e). fold (page_cells e).
  destruct (table_results (page_elements e) (page_cells e)); reflexivity.
Qed.

Lemma run_cases (e : env) (USER PASSWORD : str) :
  run_case e USER PASSWORD (run e USER PASSWORD).
Proof.
  unfold run.
  destruct (tickets e) as [|lt more] eqn:T.
  - rewrite (login_no_ticket e USER PASSWORD T). apply run_no_ticket. exact T.
  - rewrite (login_ticket e USER PASSWORD T).
    destruct (notenspiegel e) as [res_link|] eqn:L.
    + rewrite (parse_results_link e L).
      destruct (table_results (page_elements e) (page_cells e))
        as [results|x] eqn:R.
      * destruct (calc_gpa results) as [gpa|x] eqn:G.
        -- cbn [io_bind app]. rewrite (io_bind_lift_OK _ G).
           rewrite io_bind_perform, print_exams_trace.
           apply run_completes with (more := more); assumption.
        -- cbn [io_bind app]. rewrite (io_bind_lift_Raise _ G).
           apply run_gpa_raises with (more := more) (results := results); assumption.
      * apply run_table_raises with (more := more); assumption.
    + destruct (parse_results_no_link e L) as [diagnostic ->].
      apply run_no_link with (more := more); assumption.
Qed.

End Script.

Section ScriptOutcomes.

Context {rt : Runtime}.

Lemma main_cases (e : env) :
  (secrets e = None
   /\ exists diagnostic,
        main e = ([WriteFile secf (u "USER = ''" ++ [NEWLINE] ++ u "PASSWORD = ''");
                   Print diagnostic],
                  inl (SystemExit 1)))
  \/ (exists USER PASSWORD,
        secrets e = Some (USER, PASSWORD)
        /\ (USER = [] \/ PASSWORD = [])
        /\ main e = ([Print (u "Please maintain your credentials.")],
                     inl (SystemExit 1)))
  \/ (exists USER PASSWORD,
        secrets e = Some (USER, PASSWORD)
        /\ USER <> [] /\ PASSWORD <> []
        /\ run_case e USER PASSWORD (main e)).
Proof.
  destruct (secrets e) as [[USER PASSWORD]|] eqn:S.
  - destruct USER as [|c USER].
    + right. left. exists [], PASSWORD. split; [reflexivity|].
      split; [left; reflexivity|]. unfold main, bootstrap. rewrite S. reflexivity.
    + destruct PASSWORD as [|d PASSWORD].
      * right. left. exists (c :: USER), []. split; [reflexivity|].
        split; [right; reflexivity|]. unfold main, bootstrap. rewrite S.
        reflexivity.
      * right. right. exists (c :: USER), (d :: PASSWORD).
        split; [reflexivity|]. split; [discriminate|]. split; [discriminate|].
        rewrite (main_with_credentials e S) by discriminate.
        apply run_cases.
  - left. split; [reflexivity|]. unfold main, bootstrap. rewrite S.
    eexists. reflexivity.
Qed.

(** X1.  With both credentials set and no ticket on the login page, the
    script stops with an uncaught [IndexError] right after requesting
    the login page: the credentials are not posted and nothing is
    printed. *)
Theorem main_no_ticket (e : env) (USER PASSWORD : str) :
  secrets e = Some (USER, PASSWORD) -> USER <> [] -> PASSWORD <> [] ->
  tickets e = [] ->
  main e = ([Get CAS_URL []], inl (Uncaught IndexError)).
Proof.
  intros S HU HP T. rewrite (main_with_credentials e S HU HP).
  unfold run. rewrite (login_no_ticket e USER PASSWORD T). reflexivity.
Qed.

(** X2.  With credentials and a ticket, when the portal page has no
    link labelled Notenspiegel the script logs in, requests the portal
    page, prints a diagnostic and exits with status 1; the results page
    is never requested and no GPA is printed. *)
Theorem main_no_link (e : env) (USER PASSWORD lt : str) (more : list str) :
  secrets e = Some (USER, PASSWORD) -> USER <> [] -> PASSWORD <> [] ->
  tickets e = lt :: more ->
  notenspiegel e = None ->
  exists diagnostic,
    main e = ([Get CAS_URL []; Post CAS_URL (login_form USER PASSWORD lt);
               Get QIS_URL portal_query; Print diagnostic],
              inl (SystemExit 1)).
Proof.
  intros S HU HP T L. rewrite (main_with_credentials e S HU HP).
  unfold run. rewrite (login_ticket e USER PASSWORD T).
  destruct (parse_results_no_link e L) as [diagnostic ->].
  exists diagnostic. reflexivity.
Qed.

(** X3.  Whatever the environment, the script never exits with a
    status other than 1, writes a file only when the credentials could
    not be imported, and posts only to the login URL, with the
    configured credentials and the first ticket of the login page. *)
Theorem main_never (e : env) :
  (forall status, snd (main e) = inl (SystemExit status) -> status = 1%Z)
  /\ (forall name content,
        In (WriteFile name content) (fst (main e)) -> secrets e = None)
  /\ (forall url data,
        In (Post url data) (fst (main e)) ->
        url = CAS_URL
        /\ exists USER PASSWORD lt more,
             secrets e = Some (USER, PASSWORD)
             /\ tickets e = lt :: more
             /\ data = login_form USER PASSWORD lt).
Proof.
  destruct (main_cases e)
    as [[S [d M]]|[[USER [PASSWORD [S [_ M]]]]|[USER [PASSWORD [S [_ [_ C]]]]]]].
  - rewrite M. cbn [fst snd]. split; [|split].
    + intros status H. injection H as <-. reflexivity.
    + intros _ _ _. exact S.
    + intros url data [H|[H|[]]]; discriminate H.
  - rewrite M. cbn [fst snd]. split; [|split].
    + intros status H. injection H as <-. reflexivity.
    + intros name content [H|[]]. discriminate H.
    + intros url data [H|[]]. discriminate H.
  - inversion C as [T Eq|lt more d T L Eq|lt more l x T L R Eq
                    |lt more l rs x T L R G Eq|lt more l rs gpa T L R G Eq];
      cbn [fst snd]; (split; [|split]).
    all: try (intros status H; first [discriminate H | injection H as <-; reflexivity]).
    all: try (intros name content H; exfalso; cbn in H;
              repeat (destruct H as [H|H]; [discriminate H|]); exact H).
    all: intros url data H; cbn in H;
      repeat (destruct H as [H|H]; try discriminate H); try contradiction;
      injection H as <- <-; (split; [reflexivity|]);
      exists USER, PASSWORD, lt, more; auto.
Qed.

End ScriptOutcomes.

Section ScriptRuns.

Context {rt : Runtime}.

Lemma run_with_page (e : env) (USER PASSWORD lt res_link : str)
      (more : list str) :
  tickets e = lt :: more ->
  notenspiegel e = Some res_link ->
  run e USER PASSWORD
  = match table_results (page_elements e) (page_cells e) with
    | Raise x => (requests USER PASSWORD lt res_link, inl (Uncaught x))
    | OK results =>
        match calc_gpa results with
        | Raise x => (requests USER PASSWORD lt res_link, inl (Uncaught x))
        | OK gpa =>
            (requests USER PASSWORD lt res_link
               ++ [Print (gpa_report gpa);
                   Print (Py.join [NEWLINE] (List.map exam_line results))],
             inr tt)
        end
    end.
Proof.
  intros T L. pose proof (run_cases e USER PASSWORD) as C.
  inversion C as [T'|lt' more' d T' L'|lt' more' l x T' L' R
                  |lt' more' l rs x T' L' R G|lt' more' l rs gpa T' L' R G];
    rewrite T in T'; try discriminate T';
    rewrite L in L'; try discriminate L';
    injection T' as <- <-; injection L' as <-; rewrite R; try rewrite G;
    reflexivity.
Qed.

Lemma table_results_no_cells (elements : list str) :
  elements <> [] -> table_results elements [] = OK [].
Proof.
  intros H. unfold table_results.
  rewrite group_chunks by (destruct elements; [contradiction | simpl; lia]).
  cbn [length]. rewrite Nat.add_0_l.
  rewrite Nat.div_small by (destruct elements; [contradiction | simpl; lia]).
  reflexivity.
Qed.

Lemma table_results_no_headers (raw_results : list str) :
  table_results [] raw_results = Raise ValueError.
Proof. reflexivity. Qed.

Lemma calc_gpa_raises_none_passed (results : list Result) :
  Forall (fun r => passed r = []) results ->
  calc_gpa results = Raise ZeroDivisionError.
Proof.
  intros H. unfold calc_gpa. rewrite calc_gpa_loop_none_passed by exact H.
  reflexivity.
Qed.

(** X4.  The script finishes normally exactly when the credentials are
    set, the login page has a ticket, the portal has the link, the
    extraction returns records and their GPA is defined.  It has then
    made the four requests and after them two prints: the GPA line
    underlined by as many dashes as the line has characters, and the
    records, one per line, in the order of the page. *)
Theorem main_completes (e : env) :
  (snd (main e) = inr tt ->
   exists USER PASSWORD lt more res_link results gpa,
     secrets e = Some (USER, PASSWORD)
     /\ tickets e = lt :: more
     /\ notenspiegel e = Some res_link
     /\ table_results (page_elements e) (page_cells e) = OK results
     /\ calc_gpa results = OK gpa
     /\ fst (main e)
        = requests USER PASSWORD lt res_link
            ++ [Print (gpa_line gpa ++ [NEWLINE]
                         ++ repeat 45%N (length (gpa_line gpa)));
                Print (Py.join [NEWLINE] (List.map exam_line results))])
  /\ (forall USER PASSWORD lt more res_link results gpa,
         secrets e = Some (USER, PASSWORD) ->
         USER <> [] -> PASSWORD <> [] ->
         tickets e = lt :: more ->
         notenspiegel e = Some res_link ->
         table_results (page_elements e) (page_cells e) = OK results ->
         calc_gpa results = OK gpa ->
         snd (main e) = inr tt).
Proof.
  split.
  - intros Hend.
    destruct (main_cases e)
      as [[S [d M]]|[[USER [PASSWORD [S [_ M]]]]
                    |[USER [PASSWORD [S [_ [_ C]]]]]]].
    + rewrite M in Hend. discriminate Hend.
    + rewrite M in Hend. discriminate Hend.
    + inversion C as [T Eq|lt more d T L Eq|lt more l x T L R Eq
                      |lt more l rs x T L R G Eq|lt more l rs gpa T L R G Eq];
        rewrite <- Eq in Hend; try discriminate Hend.
      exists USER, PASSWORD, lt, more, l, rs, gpa.
      repeat (split; [assumption|]). reflexivity.
  - intros USER PASSWORD lt more res_link results gpa S HU HP T L R G.
    rewrite (main_with_credentials e S HU HP).
    rewrite (run_with_page e USER PASSWORD T L), R, G. reflexivity.
Qed.

(** X5.  When every record extracted from the page has an empty status,
    the script makes its four requests and then stops with an uncaught
    [ZeroDivisionError]: neither the GPA nor any exam line is printed. *)
Theorem main_none_passed (e : env) (USER PASSWORD lt res_link : str)
        (more : list str) (results : list Result) :
  secrets e = Some (USER, PASSWORD) -> USER <> [] -> PASSWORD <> [] ->
  tickets e = lt :: more ->
  notenspiegel e = Some res_link ->
  table_results (page_elements e) (page_cells e) = OK results ->
  Forall (fun r => passed r = []) results ->
  main e = (requests USER PASSWORD lt res_link,
            inl (Uncaught ZeroDivisionError)).
Proof.
  intros S HU HP T L R H.
  rewrite (main_with_credentials e S HU HP).
  rewrite (run_with_page e USER PASSWORD T L), R.
  rewrite (calc_gpa_raises_none_passed H). reflexivity.
Qed.

(** X6.  A results page with header cells and no data cell yields no
    record, and the script then stops with an uncaught
    [ZeroDivisionError] after its four requests, printing nothing. *)
Theorem main_no_cells (e : env) (USER PASSWORD lt res_link : str)
        (more : list str) :
  secrets e = Some (USER, PASSWORD) -> USER <> [] -> PASSWORD <> [] ->
  tickets e = lt :: more ->
  notenspiegel e = Some res_link ->
  th_Konto e <> [] ->
  td_posrecords e = [] ->
  table_results (page_elements e) (page_cells e) = OK []
  /\ main e = (requests USER PASSWORD lt res_link,
               inl (Uncaught ZeroDivisionError)).
Proof.
  intros S HU HP T L Hth Htd.
  assert (R : table_results (page_elements e) (page_cells e) = OK []).
  { unfold page_cells. rewrite Htd. apply table_results_no_cells.
    unfold page_elements. destruct (th_Konto e); [contradiction | discriminate]. }
  split; [exact R|].
  rewrite (main_with_credentials e S HU HP).
  rewrite (run_with_page e USER PASSWORD T L), R. reflexivity.
Qed.

(** X7.  A results page without any header cell makes the script stop
    with an uncaught [ValueError] after its four requests, whatever data
    cells the page has: the grouping step of the extraction is a range
    with step zero. *)
Theorem main_no_headers (e : env) (USER PASSWORD lt res_link : str)
        (more : list str) :
  secrets e = Some (USER, PASSWORD) -> USER <> [] -> PASSWORD <> [] ->
  tickets e = lt :: more ->
  notenspiegel e = Some res_link ->
  th_Konto e = [] ->
  main e = (requests USER PASSWORD lt res_link, inl (Uncaught ValueError)).
Proof.
  intros S HU HP T L Hth.
  rewrite (main_with_credentials e S HU HP).
  rewrite (run_with_page e USER PASSWORD T L).
  unfold page_elements. rewrite Hth. reflexivity.
Qed.

(** X8.  [print_exams] never raises and prints once: the lines of the
    records, in list order, joined by newlines.  A record with an empty
    status contributes its [Not yet passed] line; without records the
    printed text is empty. *)
Theorem print_exams_lines (results : list Result) :
  print_exams results
  = ([Print (Py.join [NEWLINE] (List.map exam_line results))], inr tt)
  /\ (forall r, passed r = [] -> exam_line r = u "Not yet passed: " ++ exam r)
  /\ (forall r, passed r <> [] -> exam_line r = passed_line r)
  /\ (results = [] -> print_exams results = ([Print []], inr tt)).
Proof.
  split; [apply print_exams_trace|].
  split.
  { intros r H. unfold exam_line. rewrite H. reflexivity. }
  split.
  { intros r H. unfold exam_line. apply truthy_true in H. rewrite H.
    reflexivity. }
  intros ->. rewrite print_exams_trace. reflexivity.
Qed.

End ScriptRuns.

(** ** Grouping, again *)

Lemma firstn_skipn_add {A : Type} (a b : nat) (l : list A) :
  firstn a l ++ firstn b (skipn a l) = firstn (a + b) l.
Proof.
  revert l. induction a as [|a IH]; intros l; simpl; [reflexivity|].
  destruct l as [|x l]; simpl.
  - rewrite firstn_nil. reflexivity.
  - rewrite IH. reflexivity.
Qed.

Lemma concat_chunks (lst : list str) (n k : nat) :
  concat (List.map (chunk lst n) (seq 0 k)) = firstn (k * n) lst.
Proof.
  induction k as [|k IH]; [reflexivity|].
  rewrite seq_S, List.map_app, concat_app, IH. cbn [List.map concat plus].
  rewrite app_nil_r. unfold chunk. rewrite firstn_skipn_add.
  f_equal. lia.
Qed.

Lemma count_covers (len n : nat) :
  (0 < n)%nat ->
  (len <= (len + n - 1) / n * n)%nat
  /\ (forall k, k < (len + n - 1) / n -> k * n < len)%nat.
Proof.
  intros Hn.
  pose proof (Nat.div_mod_eq (len + n - 1) n) as E.
  pose proof (Nat.mod_upper_bound (len + n - 1) n ltac:(lia)) as Hb.
  set (c := ((len + n - 1) / n)%nat) in *.
  set (r := ((len + n - 1) mod n)%nat) in *.
  split; [nia|]. intros k Hk. nia.
Qed.

(** X9.  For a group size [n > 0] grouping always returns; it loses,
    repeats and reorders nothing (the groups laid end to end are the
    list again); no group is empty and none has more than [n] cells; an
    empty list gives no group. *)
Theorem group_concat (lst : list str) (n : nat) :
  (0 < n)%nat ->
  exists groups,
    group lst n = OK groups
    /\ concat groups = lst
    /\ Forall (fun tup => 0 < length tup <= n)%nat groups
    /\ length groups = ((length lst + n - 1) / n)%nat
    /\ (lst = [] -> groups = []).
Proof.
  intros Hn. destruct (count_covers (length lst) Hn) as [Hc Hk].
  exists (List.map (chunk lst n) (seq 0 ((length lst + n - 1) / n))).
  split; [apply group_chunks; exact Hn|].
  split; [rewrite concat_chunks; apply firstn_all2; exact Hc|].
  split.
  { apply Forall_forall. intros tup Hin. apply in_map_iff in Hin.
    destruct Hin as [k [<- Hin]]. apply in_seq in Hin.
    unfold chunk. rewrite length_firstn, length_skipn.
    specialize (Hk k ltac:(lia)). lia. }
  split; [rewrite length_map, length_seq; reflexivity|].
  intros ->. cbn [length]. rewrite Nat.add_0_l.
  rewrite Nat.div_small by lia. reflexivity.
Qed.

(** ** Rows *)

Lemma index_not_In (label : str) (elements : list str) :
  ~ In label elements -> Py.index label elements = Raise ValueError.
Proof.
  induction elements as [|y elements IH]; intros H; simpl; [reflexivity|].
  unfold str_eqb. destruct (str_eq_dec y label) as [->|_].
  - exfalso. apply H. left. reflexivity.
  - rewrite IH; [reflexivity|]. intros Hin. apply H. right. exact Hin.
Qed.

Lemma index_In (label : str) (elements : list str) :
  In label elements ->
  exists i, Py.index label elements = OK i /\ (i < length elements)%nat.
Proof.
  induction elements as [|y elements IH]; intros H; [destruct H|].
  simpl. unfold str_eqb. destruct (str_eq_dec y label) as [->|Hne].
  - exists 0%nat. split; [reflexivity | simpl; lia].
  - destruct H as [H|H]; [contradiction|].
    destruct (IH H) as [i [Hi Hlt]]. rewrite Hi.
    exists (S i). split; [reflexivity | simpl; lia].
Qed.

Lemma index_app_l (label : str) (elements more : list str) (i : nat) :
  Py.index label elements = OK i ->
  Py.index label (elements ++ more) = OK i.
Proof.
  revert i. induction elements as [|y elements IH]; intros i H;
    [discriminate H|].
  simpl in *. destruct (str_eqb y label); [exact H|].
  destruct (Py.index label elements) as [j|]; [|discriminate H].
  rewrite (IH j eq_refl). exact H.
Qed.

Section Rows.

Context {rt : Runtime}.

Ltac row_fails :=
  repeat match goal with
    | H : OK _ = Raise _ |- _ => discriminate H
    | |- fails (Raise _) => eexists; reflexivity
    | |- fails (bind (Raise _) _) => eexists; reflexivity
    | |- fails (bind (OK _) _) => cbn [bind]
    | |- fails (bind ?m _) => destruct m eqn:?
    end.

Lemma row_result_missing (elements tup : list str) (label : str) :
  In label required_labels ->
  ~ In label elements ->
  fails (row_result elements tup).
Proof.
  intros Hin Hno. apply index_not_In in Hno.
  unfold required_labels in Hin. simpl in Hin. unfold row_result.
  destruct Hin as [<-|[<-|[<-|[<-|[<-|[]]]]]]; rewrite Hno; row_fails.
Qed.

(** X10.  When the header row lacks one of the five labels, no row
    builds a record, and the extraction raises as soon as the page has
    a data cell; a row under headers without the semester label raises
    [ValueError]. *)
Theorem missing_label_fails (elements : list str) (label : str) :
  In label required_labels ->
  ~ In label elements ->
  (forall tup, fails (row_result elements tup))
  /\ (forall raw_results,
        elements <> [] -> raw_results <> [] ->
        fails (table_results elements raw_results))
  /\ (label = u "Semester" ->
      forall tup, row_result elements tup = Raise ValueError).
Proof.
  intros Hin Hno.
  split; [intros tup; apply row_result_missing with (label := label); assumption|].
  split.
  - intros raw_results He Hr. unfold table_results.
    assert (Hn : (0 < length elements)%nat)
      by (destruct elements; [contradiction | simpl; lia]).
    rewrite group_chunks by exact Hn. cbn [bind].
    assert (Hc : exists c, ((length raw_results + length elements - 1)
                            / length elements = S c)%nat).
    { destruct ((length raw_results + length elements - 1) / length elements)%nat
        as [|c] eqn:E; [|exists c; reflexivity].
      exfalso. apply Nat.div_small_iff in E; [|lia].
      destruct raw_results; [contradiction | simpl in E; lia]. }
    destruct Hc as [c ->]. cbn [seq List.map mapM].
    apply fails_bind_l.
    apply row_result_missing with (label := label); assumption.
  - intros -> tup. unfold row_result.
    rewrite index_not_In by exact Hno. reflexivity.
Qed.

(** X11.  The credits of an extracted record are a single decimal digit:
    whatever the credits cell holds, a record that builds has credits
    between 0 and 9 (the runtime's table of digits gives digit values). *)
Theorem row_result_ects_digit (elements tup : list str) (r : Result) :
  (forall c d, unicode_decimal c = Some d -> (0 <= d <= 9)%Z) ->
  row_result elements tup = OK r ->
  (0 <= ects r <= 9)%Z.
Proof.
  intros Hd H. rewrite row_result_fields in H.
  repeat match type of H with
    | bind ?m _ = OK _ =>
        let a := fresh "a" in let E := fresh "E" in
        destruct m as [a|] eqn:E; cbn [bind] in H; [|discriminate H]
    end.
  injection H as <-. cbn [ects].
  match goal with
  | E : parse_ects _ = OK ?d |- _ => apply parse_ects_OK in E;
      destruct E as [_ [_ [_ [c [_ [_ [_ [_ [_ [_ ->]]]]]]]]]]
  end.
  match goal with
  | E : int_of_str [c] = OK ?n |- _ => rename E into Hint
  end.
  unfold int_of_str, Py.strip, Py.rstrip in Hint. cbn [Py.lstrip] in Hint.
  destruct (Py.isspace c) eqn:Sp.
  - cbn [rev Py.lstrip] in Hint. discriminate Hint.
  - cbn [rev app Py.lstrip] in Hint. rewrite Sp in Hint. cbn [rev app] in Hint.
    destruct (c =? 45)%N; [discriminate Hint|].
    destruct (c =? 43)%N; [discriminate Hint|].
    cbn [digits] in Hint.
    destruct (c =? 95)%N; [discriminate Hint|].
    destruct (decimal_value c) as [d|] eqn:D; [|discriminate Hint].
    injection Hint as <-. unfold decimal_value in D.
    destruct ((48 <=? c) && (c <=? 57))%N eqn:A.
    + injection D as <-. apply andb_true_iff in A. destruct A as [A1 A2].
      apply N.leb_le in A1, A2. lia.
    + destruct (c <? 128)%N; [discriminate D|].
      specialize (Hd c d D). lia.
Qed.

(** X12.  A row is resolved from the columns of the five labels alone:
    columns added after a header row that has the five labels, with
    their cells added to the row, leave the record as it was. *)
Theorem row_result_extra_columns (elements tup more_elements more_cells : list str) :
  length elements = length tup ->
  (forall label, In label required_labels -> In label elements) ->
  row_result (elements ++ more_elements) (tup ++ more_cells)
  = row_result elements tup.
Proof.
  intros Hlen Hall.
  assert (F : forall label, In label required_labels ->
              field label (elements ++ more_elements) (tup ++ more_cells)
              = field label elements tup).
  { intros label Hin. destruct (@index_In label elements (Hall label Hin)) as [i [Hi Hlt]].
    unfold field. rewrite (@index_app_l label elements more_elements i Hi), Hi. cbn [bind].
    unfold Py.getitem. rewrite nth_error_app1 by lia. reflexivity. }
  rewrite !row_result_fields.
  rewrite !F by (unfold required_labels; simpl; tauto).
  reflexivity.
Qed.

End Rows.

(** ** The credit decoder, again *)

Lemma split_length (sep : char) (s : str) :
  length (Py.split sep s) = S (count_char sep s).
Proof.
  unfold count_char. induction s as [|c s IH]; [reflexivity|].
  cbn [Py.split count_occ].
  destruct (N.eqb_spec c sep) as [->|Hne].
  - destruct (N.eq_dec sep sep) as [_|F]; [|contradiction].
    cbn [length]. rewrite IH. reflexivity.
  - destruct (N.eq_dec c sep) as [E|_]; [contradiction|].
    destruct (Py.split sep s) as [|seg rest]; [discriminate IH|].
    exact IH.
Qed.

(** X13.  The decoder keeps one character of the number in the script
    comment: the last one before the first decimal point.  Credits
    written with two digits decode as their last digit, and a fraction
    after the point is dropped. *)
Theorem parse_ects_keeps_last (before number after : str) (c : char) :
  ~ In DOT before -> ~ In DOT number -> c <> DOT ->
  parse_ects (before ++ u "<!-- document.write(Math.round("
                ++ number ++ c :: DOT :: after)
  = OK [c].
Proof.
  intros Hb Hn Hc. apply parse_ects_OK.
  exists (before ++ u "<!-- document"), (u "write(Math"),
    (u "round(" ++ number), c, (DOT :: after).
  split.
  { change (u "<!-- document.write(Math.round(")
      with (u "<!-- document" ++ DOT :: u "write(Math" ++ DOT :: u "round(").
    rewrite <- !app_assoc. cbn [app]. rewrite <- !app_assoc. reflexivity. }
  split.
  { intros Hin. apply in_app_or in Hin. destruct Hin as [Hin|Hin];
      [exact (Hb Hin)|].
    vm_compute in Hin. repeat (destruct Hin as [Hin|Hin]; [discriminate Hin|]).
    exact Hin. }
  split.
  { intros Hin. vm_compute in Hin.
    repeat (destruct Hin as [Hin|Hin]; [discriminate Hin|]). exact Hin. }
  split.
  { intros Hin. apply in_app_or in Hin. destruct Hin as [Hin|[Hin|[]]];
      [|exact (Hc Hin)].
    apply in_app_or in Hin. destruct Hin as [Hin|Hin]; [|exact (Hn Hin)].
    vm_compute in Hin. repeat (destruct Hin as [Hin|Hin]; [discriminate Hin|]).
    exact Hin. }
  split; [right; reflexivity | reflexivity].
Qed.

(** X14.  The decoder raises nothing but [IndexError], and it does so
    on every content with fewer than two full stops and on every content
    whose third segment is empty. *)
Theorem parse_ects_raises :
  (forall ectss x, parse_ects ectss = Raise x -> x = IndexError)
  /\ (forall ectss,
        (count_char DOT ectss < 2)%nat -> parse_ects ectss = Raise IndexError)
  /\ (forall a b,
        ~ In DOT a -> ~ In DOT b ->
        parse_ects (a ++ DOT :: b ++ [DOT]) = Raise IndexError)
  /\ (forall a b after,
        ~ In DOT a -> ~ In DOT b ->
        parse_ects (a ++ DOT :: b ++ DOT :: DOT :: after) = Raise IndexError).
Proof.
  split.
  { intros ectss x. unfold parse_ects, Py.getitem.
    destruct (nth_error (Py.split DOT ectss) 2) as [seg|]; cbn [bind].
    - unfold Py.last_char. destruct (rev seg); [|discriminate].
      intros H. injection H as <-. reflexivity.
    - intros H. injection H as <-. reflexivity. }
  split.
  { intros ectss H. unfold parse_ects, Py.getitem.
    assert (N : nth_error (Py.split DOT ectss) 2 = None).
    { apply nth_error_None. rewrite split_length. lia. }
    rewrite N. reflexivity. }
  split.
  { intros a b Ha Hb. unfold parse_ects.
    rewrite split_first by exact Ha.
    change (b ++ [DOT]) with (b ++ DOT :: []).
    rewrite split_first by exact Hb. reflexivity. }
  intros a b after Ha Hb. unfold parse_ects.
  rewrite split_first by exact Ha. rewrite split_first by exact Hb.
  change (DOT :: after) with ([] ++ DOT :: after).
  rewrite split_first by (intros []). reflexivity.
Qed.

(** ** Blank cells *)

Lemma lstrip_blank (s : str) :
  forallb Py.isspace s = true -> Py.lstrip s = [].
Proof.
  induction s as [|c s IH]; simpl; [reflexivity|].
  intros H. apply andb_true_iff in H. destruct H as [Hc Hs].
  rewrite Hc. exact (IH Hs).
Qed.

Section Blank.

Context {rt : Runtime}.

Lemma decomposition_nonempty (c : char) :
  (forall c', (256 <= c')%N -> unicode_decomposition c' <> []) ->
  decomposition c <> [].
Proof.
  intros H. unfold decomposition. destruct (N.ltb_spec c 256) as [_|Hge].
  - unfold latin1_decomposition.
    destruct (assoc c latin1_decompositions) as [d|] eqn:E; [|discriminate].
    apply assoc_In in E.
    assert (T : forallb (fun kv => match snd kv with [] => false | _ => true end)
                  latin1_decompositions = true) by (vm_compute; reflexivity).
    rewrite forallb_forall in T. specialize (T _ E). simpl in T.
    destruct d; [discriminate T | discriminate].
  - apply H. exact Hge.
Qed.

(** X15.  A cell whose text is only whitespace, no-break spaces
    included, is extracted as the empty string; and, no decomposition of
    the Unicode tables being empty, the empty string is extracted from
    such cells only. *)
Theorem strip_blank (tag : Tag) :
  (forallb Py.isspace (getText tag) = true -> strip tag = [])
  /\ ((forall c, (256 <= c)%N -> unicode_decomposition c <> []) ->
      strip tag = [] -> forallb Py.isspace (getText tag) = true).
Proof.
  split.
  - intros H. unfold strip, Py.strip. rewrite lstrip_blank by exact H.
    reflexivity.
  - intros Hne H. unfold strip in H.
    destruct (strip_spec (getText tag)) as [before [after [E [Hb [Ha _]]]]].
    destruct (Py.strip (getText tag)) as [|c s] eqn:S.
    + rewrite E. cbn [app]. rewrite forallb_app, Hb, Ha. reflexivity.
    + exfalso. unfold normalize_NFKD in H. cbn [flat_map] in H.
      destruct (decomposition c) as [|x d] eqn:D;
        [exact (decomposition_nonempty c Hne D)|].
      assert (Hin : In x (canonical_order ((x :: d) ++ flat_map decomposition s))).
      { apply In_canonical_order. left. reflexivity. }
      rewrite H in Hin. destruct Hin.
Qed.

End Blank.

(** ** The grade-point average, again *)

(** X16.  With credits a float can hold, [calc_gpa] raises
    [ZeroDivisionError] exactly when the credits of the passed records
    sum to zero, be it that no record is passed, that the passed records
    have no credits, or that their credits cancel. *)
Theorem calc_gpa_zero_division (results : list Result) :
  Forall (fun r => float_range (ects r)) (passed_records results) ->
  float_range (credit_sum (passed_records results)) ->
  (calc_gpa results = Raise ZeroDivisionError
   <-> credit_sum (passed_records results) = 0%Z).
Proof.
  intros Hr Hs. unfold calc_gpa. rewrite calc_gpa_loop_passed_only.
  destruct (passed_records results) as [|r ps] eqn:P.
  - cbn. split; reflexivity.
  - rewrite <- P in *.
    rewrite calc_gpa_loop_start;
      [|apply passed_records_truthy|exact Hr|rewrite P; discriminate].
    cbn [bind fst snd]. unfold Py.truediv.
    destruct (Z.eqb_spec (credit_sum (passed_records results)) 0) as [E|E].
    + split; [intros _; exact E | reflexivity].
    + rewrite float_of_int_in_range by exact Hs. cbn [bind].
      split; [discriminate | contradiction].
Qed.

(** ** Columns of a passed line *)

Lemma skipn_app_exact {A : Type} (a b : list A) (n : nat) :
  length a = n -> skipn n (a ++ b) = b.
Proof.
  intros <-. rewrite skipn_app, skipn_all, Nat.sub_diag. reflexivity.
Qed.

Lemma firstn_app_exact {A : Type} (a b : list A) (n : nat) :
  length a = n -> firstn n (a ++ b) = a.
Proof.
  intros <-. rewrite firstn_app, firstn_all, Nat.sub_diag, firstn_O.
  apply app_nil_r.
Qed.

Section Columns.

Context {rt : Runtime}.

(** X17.  In the line of a passed record whose semester has at most 14
    characters and whose exam name has at most 40, the semester fills
    the first 14 columns, the exam name the next 40, and the [ > ] that
    precedes the grade starts at column 54, so that such lines align;
    the line ends with the credits and [ ECTS)]. *)
Theorem passed_line_columns (self : Result) (line : str) :
  passed self <> [] ->
  (length (semester self) <= 14)%nat ->
  (length (exam self) <= 40)%nat ->
  Result_str self = OK line ->
  firstn 14 line
  = semester self ++ repeat SPACE (14 - length (semester self))
  /\ firstn 40 (skipn 14 line)
     = exam self ++ repeat SPACE (40 - length (exam self))
  /\ skipn 54 line
     = u " > " ++ str_of_float (grade self)
         ++ u " (" ++ Py.str_of_int (ects self) ++ u " ECTS)"
  /\ length line
     = (54 + 3 + length (str_of_float (grade self)) + 2
        + length (Py.str_of_int (ects self)) + 6)%nat.
Proof.
  intros Hp Hs He H. rewrite Result_str_passed in H by exact Hp.
  injection H as <-.
  assert (E : passed_line self
              = (semester self ++ repeat SPACE (14 - length (semester self)))
                  ++ (exam self ++ repeat SPACE (40 - length (exam self)))
                  ++ (u " > " ++ str_of_float (grade self)
                        ++ u " (" ++ Py.str_of_int (ects self) ++ u " ECTS)")).
  { unfold passed_line. rewrite <- !app_assoc. reflexivity. }
  rewrite E. clear E.
  set (f1 := semester self ++ repeat SPACE (14 - length (semester self))).
  set (f2 := exam self ++ repeat SPACE (40 - length (exam self))).
  assert (L1 : length f1 = 14%nat).
  { unfold f1. rewrite length_app, repeat_length. lia. }
  assert (L2 : length f2 = 40%nat).
  { unfold f2. rewrite length_app, repeat_length. lia. }
  split; [apply firstn_app_exact; exact L1|].
  split.
  { rewrite (@skipn_app_exact _ f1 _ 14%nat L1).
    apply firstn_app_exact. exact L2. }
  split.
  { rewrite app_assoc. apply skipn_app_exact. rewrite length_app. lia. }
  rewrite !length_app, L1, L2.
  change (length (u " > ")) with 3%nat.
  change (length (u " (")) with 2%nat.
  change (length (u " ECTS)")) with 6%nat. lia.
Qed.

End Columns.

(** ** Instances of the further properties *)

Lemma main_no_ticket_witness :
  @main latin1_runtime Pages.no_ticket
  = ([Get CAS_URL []], inl (Uncaught IndexError)).
Proof.
  apply (@main_no_ticket latin1_runtime Pages.no_ticket (u "user") (u "secret"));
    [reflexivity | discriminate | discriminate | reflexivity].
Defined.

Lemma main_no_link_witness :
  exists diagnostic,
    @main latin1_runtime Pages.no_link
    = ([Get CAS_URL [];
        Post CAS_URL (login_form (u "user") (u "secret") (u "LT-1-abc"));
        Get QIS_URL portal_query; Print diagnostic],
       inl (SystemExit 1)).
Proof.
  apply (@main_no_link latin1_runtime Pages.no_link (u "user") (u "secret")
           (u "LT-1-abc") []);
    [reflexivity | discriminate | discriminate | reflexivity | reflexivity].
Defined.

Lemma main_never_witness :
  In (Post CAS_URL (login_form (u "user") (u "secret") (u "LT-1-abc")))
     (fst (@main latin1_runtime Pages.no_link))
  /\ exists USER PASSWORD lt more,
       secrets Pages.no_link = Some (USER, PASSWORD)
       /\ tickets Pages.no_link = lt :: more
       /\ login_form (u "user") (u "secret") (u "LT-1-abc")
          = login_form USER PASSWORD lt.
Proof.
  assert (H : In (Post CAS_URL (login_form (u "user") (u "secret") (u "LT-1-abc")))
                 (fst (@main latin1_runtime Pages.no_link))).
  { right. left. reflexivity. }
  split; [exact H|].
  exact (proj2 (proj2 (proj2 (@main_never latin1_runtime Pages.no_link)) _ _ H)).
Defined.

Lemma main_completes_witness :
  snd (@main latin1_runtime (Sample.page Pages.credentials)) = inr tt.
Proof.
  eapply (proj2 (@main_completes latin1_runtime (Sample.page Pages.credentials)))
    with (USER := u "user") (PASSWORD := u "secret").
  - reflexivity.
  - discriminate.
  - discriminate.
  - reflexivity.
  - reflexivity.
  - vm_compute. reflexivity.
  - vm_compute. reflexivity.
Defined.

Lemma main_none_passed_witness :
  @main latin1_runtime Pages.blank_status
  = (requests (u "user") (u "secret") (u "LT-1-abc")
       (u "https://portal/notenspiegel"),
     inl (Uncaught ZeroDivisionError)).
Proof.
  eapply (@main_none_passed latin1_runtime Pages.blank_status) with (more := []).
  - reflexivity.
  - discriminate.
  - discriminate.
  - reflexivity.
  - reflexivity.
  - vm_compute. reflexivity.
  - repeat constructor.
Defined.

Lemma main_no_cells_witness :
  @main latin1_runtime Pages.no_cells
  = (requests (u "user") (u "secret") (u "LT-1-abc")
       (u "https://portal/notenspiegel"),
     inl (Uncaught ZeroDivisionError)).
Proof.
  apply (@main_no_cells latin1_runtime Pages.no_cells (u "user") (u "secret")
           (u "LT-1-abc") (u "https://portal/notenspiegel") []);
    [reflexivity | discriminate | discriminate | reflexivity | reflexivity
    | discriminate | reflexivity].
Defined.

Lemma main_no_headers_witness :
  @main latin1_runtime Pages.no_headers
  = (requests (u "user") (u "secret") (u "LT-1-abc")
       (u "https://portal/notenspiegel"),
     inl (Uncaught ValueError)).
Proof.
  apply (@main_no_headers latin1_runtime Pages.no_headers (u "user")
           (u "secret") (u "LT-1-abc") (u "https://portal/notenspiegel") []);
    [reflexivity | discriminate | discriminate | reflexivity | reflexivity
    | reflexivity].
Defined.

Lemma print_exams_lines_witness :
  @exam_line latin1_runtime Sample.pending = u "Not yet passed: Logik".
Proof.
  exact (proj1 (proj2 (@print_exams_lines latin1_runtime [Sample.pending]))
           Sample.pending eq_refl).
Defined.

Lemma group_concat_witness :
  exists groups,
    group Sample.ragged_cells 5 = OK groups
    /\ concat groups = Sample.ragged_cells
    /\ Forall (fun tup => 0 < length tup <= 5)%nat groups
    /\ length groups = ((length Sample.ragged_cells + 5 - 1) / 5)%nat
    /\ (Sample.ragged_cells = [] -> groups = []).
Proof.
  apply group_concat. lia.
Defined.

Lemma missing_label_fails_witness :
  fails (@row_result latin1_runtime Pages.headers_no_ects Sample.row1).
Proof.
  apply (proj1 (@missing_label_fails latin1_runtime Pages.headers_no_ects
                  (u "ECTS")
                  ltac:(simpl; tauto)
                  ltac:(vm_compute; intros H;
                        repeat (destruct H as [H|H]; [discriminate H|]);
                        exact H))).
Defined.

Lemma row_result_ects_digit_witness :
  exists r,
    @row_result latin1_runtime Sample.headers Sample.row1 = OK r
    /\ (0 <= ects r <= 9)%Z.
Proof.
  eexists. split.
  - vm_compute. reflexivity.
  - eapply (@row_result_ects_digit latin1_runtime Sample.headers Sample.row1).
    + intros c d H. discriminate H.
    + vm_compute. reflexivity.
Defined.

Lemma row_result_extra_columns_witness :
  @row_result latin1_runtime Pages.headers_wide Pages.row1_wide
  = @row_result latin1_runtime Sample.headers Sample.row1.
Proof.
  unfold Pages.headers_wide, Pages.row1_wide.
  apply row_result_extra_columns.
  - reflexivity.
  - intros label H. exact H.
Defined.

Lemma parse_ects_keeps_last_witness :
  parse_ects (u "<!-- document.write(Math.round(12.0*10)/10); //-->")
  = OK (u "2").
Proof.
  apply (@parse_ects_keeps_last [] (u "1") (u "0*10)/10); //-->") 50%N).
  - intros [].
  - intros [H|[]]. discriminate H.
  - discriminate.
Defined.

Lemma parse_ects_raises_witness :
  parse_ects (u "6,0") = Raise IndexError.
Proof.
  apply (proj1 (proj2 parse_ects_raises)). vm_compute. lia.
Defined.

Lemma strip_blank_witness :
  @strip latin1_runtime Pages.blank_tag = [].
Proof.
  apply (proj1 (@strip_blank latin1_runtime Pages.blank_tag)). reflexivity.
Defined.

Lemma calc_gpa_zero_division_witness :
  calc_gpa [Sample.pending; Sample.seminar] = Raise ZeroDivisionError.
Proof.
  apply (@calc_gpa_zero_division [Sample.pending; Sample.seminar]).
  - repeat constructor; vm_compute; reflexivity.
  - vm_compute. reflexivity.
  - reflexivity.
Defined.

Lemma passed_line_columns_witness :
  skipn 54 Pages.analysis_line = u " > 2.0 (6 ECTS)".
Proof.
  destruct (@passed_line_columns latin1_runtime Sample.analysis
              Pages.analysis_line)
    as [_ [_ [E _]]].
  - discriminate.
  - simpl. lia.
  - simpl. lia.
  - vm_compute. reflexivity.
  - rewrite E. vm_compute. reflexivity.
Defined.
